(** * HuskyLens MCP bridge: a shallow embedding of [huskylens_bridge.py]

    The development follows the Python source function by function.

    - Python values that travel through the bridge (decoded JSON documents,
      request dictionaries, the [None] a function returns when it falls off
      its end) are the inductive type [json].
    - Python exceptions are values of type [exn]; fallible code returns
      [attempt].
    - The methods of [HuskyLensMCPClient] are computations in a state and
      exception monad [M] over the client's attributes and the network.
    - The upstream device is an oracle: the n-th network operation of the
      process receives the n-th outcome of the oracle, so every theorem that
      quantifies over oracles covers every behaviour of the transport.
    - Python [str] is modelled by [string] (ASCII text); [logger] calls have
      no effect on any value and are left out. *)

From Stdlib Require Import String Ascii List ZArith Bool Lia PeanoNat.
From Stdlib Require Import PrimFloat SpecFloat FloatOps DecimalString Sorted.
Import ListNotations.
Set Warnings "-register-all".
Open Scope string_scope.
Open Scope Z_scope.

(** ** Python values *)

Inductive json : Type :=
| JNull                                   (* None  / null *)
| JBool (b : bool)
| JInt (n : Z)
| JFloat (f : float)
| JStr (s : string)
| JList (items : list json)
| JDict (fields : list (string * json)).  (* insertion order, first binding wins *)

(** Exceptions: the class decides which [except] clause catches them,
    [message] is what [str(e)] gives. *)
Inductive exn_class : Type :=
| TimeoutError      (* asyncio.TimeoutError *)
| TypeError
| AttributeError
| JSONDecodeError
| KeyError
| ValueError
| RecursionError
| TransportError.   (* any other Exception raised by the HTTP client *)

Record exn : Type := Exn { cls : exn_class; message : string }.

Inductive attempt (A : Type) : Type :=
| Ok (a : A)
| Raise (e : exn).
Arguments Ok {A} a.
Arguments Raise {A} e.

Definition is_timeout (e : exn) : bool :=
  match cls e with TimeoutError => true | _ => false end.

(** Whether [except json.JSONDecodeError] catches [e]. *)
Definition is_decode_error (e : exn) : bool :=
  match cls e with JSONDecodeError => true | _ => false end.

(** ** Strings, as the Python string methods the source uses *)

Definition nl : string := String "010"%char EmptyString.
Definition dq : string := String "034"%char EmptyString.

(** [s.startswith(p)] *)
Definition startswith (s p : string) : bool := String.prefix p s.

(** [s[n:]] *)
Fixpoint drop (n : nat) (s : string) : string :=
  match n, s with
  | O, _ => s
  | S _, EmptyString => EmptyString
  | S n', String _ s' => drop n' s'
  end.

(** [p in s] on strings *)
Fixpoint contains (s p : string) : bool :=
  startswith s p ||
  match s with
  | EmptyString => false
  | String _ s' => contains s' p
  end.

(** ASCII characters for which [str.isspace] holds. *)
Definition isspace (c : ascii) : bool :=
  let n := nat_of_ascii c in
  ((9 <=? n) && (n <=? 13) || (28 <=? n) && (n <=? 32))%nat.

Fixpoint lstrip (s : string) : string :=
  match s with
  | String c s' => if isspace c then lstrip s' else s
  | EmptyString => EmptyString
  end.

Fixpoint rstrip (s : string) : string :=
  match s with
  | EmptyString => EmptyString
  | String c s' =>
      match rstrip s' with
      | EmptyString => if isspace c then EmptyString else String c EmptyString
      | r => String c r
      end
  end.

(** [s.strip()] *)
Definition strip (s : string) : string := rstrip (lstrip s).

(** [s.isdigit()] *)
Definition is_digit_char (c : ascii) : bool :=
  let n := nat_of_ascii c in ((48 <=? n) && (n <=? 57))%nat.

Fixpoint all_digits (s : string) : bool :=
  match s with
  | EmptyString => true
  | String c s' => is_digit_char c && all_digits s'
  end.

Definition isdigit (s : string) : bool :=
  match s with EmptyString => false | _ => all_digits s end.

(** [s.split('\n')]: the pieces between newlines, never an empty list. *)
Fixpoint split_lines (s : string) : list string :=
  match s with
  | EmptyString => [EmptyString]
  | String c s' =>
      if Ascii.eqb c "010"%char then EmptyString :: split_lines s'
      else match split_lines s' with
           | l :: ls => String c l :: ls
           | [] => [String c EmptyString]
           end
  end.

(** The lines [async for line in response.content] yields: each one ends
    with its newline, except a last unterminated one; nothing after the
    final newline. *)
Fixpoint terminate_lines (pieces : list string) : list string :=
  match pieces with
  | [] => []
  | [p] => match p with EmptyString => [] | _ => [p] end
  | p :: rest => (p ++ nl) :: terminate_lines rest
  end.

Definition iter_lines (s : string) : list string :=
  terminate_lines (split_lines s).

(** ** Operations on Python values *)

(** [type(v).__name__], as it appears in CPython's error messages. *)
Definition type_name (v : json) : string :=
  match v with
  | JNull => "NoneType"
  | JBool _ => "bool"
  | JInt _ => "int"
  | JFloat _ => "float"
  | JStr _ => "str"
  | JList _ => "list"
  | JDict _ => "dict"
  end.

(** [d.get(k)] on the bindings of a dictionary. *)
Fixpoint dict_get (k : string) (d : list (string * json)) : option json :=
  match d with
  | [] => None
  | (k', v) :: d' => if String.eqb k k' then Some v else dict_get k d'
  end.

(** [d.get(k, default)] *)
Definition dict_get_default (k : string) (default : json)
    (d : list (string * json)) : json :=
  match dict_get k d with Some v => v | None => default end.

(** [isinstance(v, dict)] *)
Definition is_dict (v : json) : bool :=
  match v with JDict _ => true | _ => false end.

(** [v == s] for a string literal [s]: only an equal [str] compares equal. *)
Definition eq_str (v : json) (s : string) : bool :=
  match v with JStr s' => String.eqb s' s | _ => false end.

(** The exact value of a float, when it is an integer. *)
Definition float_eq_int (f : float) (n : Z) : bool :=
  match Prim2SF f with
  | S754_zero _ => n =? 0
  | S754_finite sign m e =>
      let v := if sign then Z.neg m else Z.pos m in
      if 0 <=? e then v * 2 ^ e =? n else v =? n * 2 ^ (- e)
  | _ => false
  end.

(** [v == n] for a Python int [n]: ints, bools ([True == 1]) and floats
    ([1.0 == 1]) compare by value, everything else is unequal. *)
Definition eq_int (v : json) (n : Z) : bool :=
  match v with
  | JInt m => m =? n
  | JBool b => (if b then 1 else 0) =? n
  | JFloat f => float_eq_int f n
  | _ => false
  end.

(** Truth value of [v], as [not v] and [if v:] test it. *)
Definition truthy (v : json) : bool :=
  match v with
  | JNull => false
  | JBool b => b
  | JInt n => negb (n =? 0)
  | JFloat f => negb (PrimFloat.eqb f PrimFloat.zero)
  | JStr s => negb (String.eqb s "")
  | JList l => match l with [] => false | _ => true end
  | JDict d => match d with [] => false | _ => true end
  end.

(** [k in v] for a string literal [k]: key of a dict, element of a list,
    substring of a string; a [TypeError] on anything else. *)
Definition py_in (k : string) (v : json) : attempt bool :=
  match v with
  | JDict d => Ok (match dict_get k d with Some _ => true | None => false end)
  | JList l => Ok (existsb (fun x => eq_str x k) l)
  | JStr s => Ok (contains s k)
  | _ => Raise (Exn TypeError
                  ("argument of type '" ++ type_name v ++ "' is not iterable"))
  end.

(** [v.get(k, default)]: only dictionaries have the method. *)
Definition py_get (v : json) (k : string) (default : json) : attempt json :=
  match v with
  | JDict d => Ok (dict_get_default k default d)
  | _ => Raise (Exn AttributeError
                  ("'" ++ type_name v ++ "' object has no attribute 'get'"))
  end.

(** [v[k]] for a string literal [k]. *)
Definition py_getitem (v : json) (k : string) : attempt json :=
  match v with
  | JDict d =>
      match dict_get k d with
      | Some x => Ok x
      | None => Raise (Exn KeyError ("'" ++ k ++ "'"))
      end
  | JList _ =>
      Raise (Exn TypeError "list indices must be integers or slices, not str")
  | JStr _ =>
      Raise (Exn TypeError "string indices must be integers, not 'str'")
  | _ =>
      Raise (Exn TypeError
               ("'" ++ type_name v ++ "' object is not subscriptable"))
  end.

(** Decimal numeral of a position, for error messages. *)
Definition show_nat (n : nat) : string :=
  NilEmpty.string_of_uint (Nat.to_uint n).

(** [str(n)] for a Python int. *)
Definition show_int (n : Z) : string :=
  NilEmpty.string_of_int (Z.to_int n).

(** [sep.join(parts)]: every part must be a [str]; the first that is not
    raises [TypeError]. *)
Fixpoint join_from (i : nat) (sep : string) (parts : list json)
  : attempt string :=
  match parts with
  | [] => Ok ""
  | p :: rest =>
      match p with
      | JStr s =>
          match rest with
          | [] => Ok s
          | _ => match join_from (S i) sep rest with
                 | Ok r => Ok (s ++ sep ++ r)
                 | Raise e => Raise e
                 end
          end
      | _ => Raise (Exn TypeError
                      ("sequence item " ++ show_nat i
                       ++ ": expected str instance, " ++ type_name p
                       ++ " found"))
      end
  end.

Definition str_join (sep : string) (parts : list json) : attempt string :=
  join_from 0 sep parts.

(** ** Envelopes *)

(** [{"error": {"code": -32603, "message": msg}}] *)
Definition error_envelope (msg : string) : json :=
  JDict [("error", JDict [("code", JInt (-32603)); ("message", JStr msg)])].

(** The request dictionary built by [call_tool] and [_call_tool_via_sse]. *)
Definition tools_call_request (tool_name arguments : json) (request_id : Z)
  : json :=
  JDict [("method", JStr "tools/call");
         ("params", JDict [("name", tool_name); ("arguments", arguments)]);
         ("jsonrpc", JStr "2.0");
         ("id", JInt request_id)].

(** ** [HuskyLensMCPClient._process_tool_response] *)

(** The [for item in content] loop: [text_parts] after the loop. *)
Fixpoint collect_text_parts (content text_parts : list json) : list json :=
  match content with
  | [] => text_parts
  | item :: rest =>
      match item with
      | JDict fields =>
          let item_type := dict_get_default "type" JNull fields in
          if eq_str item_type "text" then
            let text_content := dict_get_default "text" (JStr "") fields in
            collect_text_parts rest (text_parts ++ [text_content])
          else if eq_str item_type "resource_link" then
            (* name and uri are read for the debug log only *)
            collect_text_parts rest text_parts
          else collect_text_parts rest text_parts
      | _ => collect_text_parts rest text_parts
      end
  end.

Definition normalized_envelope (id is_error : json) (combined_text : string)
  : json :=
  JDict [("jsonrpc", JStr "2.0");
         ("id", id);
         ("result", JDict [("isError", is_error);
                           ("content", JStr combined_text)])].

Definition _process_tool_response (response : json) : attempt json :=
  match py_in "error" response with
  | Raise e => Raise e
  | Ok true => Ok response
  | Ok false =>
      match py_get response "result" (JDict []) with
      | Raise e => Raise e
      | Ok (JDict result) =>
          let is_error := dict_get_default "isError" (JBool false) result in
          let content := dict_get_default "content" (JList []) result in
          let text_parts :=
            match content with
            | JList items => collect_text_parts items []
            | JStr s => [JStr s]
            | _ => []
            end in
          match str_join nl text_parts with
          | Raise e => Raise e
          | Ok combined_text =>
              match py_get response "id" JNull with
              | Raise e => Raise e
              | Ok id => Ok (normalized_envelope id is_error combined_text)
              end
          end
      | Ok _ => Ok response
      end
  end.

(** ** A JSON decoder for concrete documents

    [json.loads] belongs to the Python standard library, not to the bridge:
    the bridge is parameterised by a decoder [string -> attempt json] and
    its theorems hold for every decoder.  A decoder fails with
    [json.JSONDecodeError] on text that is not JSON; it can also fail with
    another exception on text it gives up on ([ValueError] on an integer of
    more than 4300 digits, [RecursionError] on nesting that is too deep),
    which the [except json.JSONDecodeError] clauses of the bridge do not
    catch.

    [loads] is a decoder for the fragment used in worked examples: null,
    booleans, integers (with the limit of 4300 digits), strings with the
    simple escapes, arrays and objects (a repeated key keeps its first
    position and its last value, as a Python dict does).  Numerals with a
    fraction or an exponent and nesting deep enough to exhaust the
    interpreter's stack are not in the fragment. *)
Module Decoder.

(** The [json.JSONDecodeError] of a syntax error; the bridge never looks at
    its message. *)
Definition syntax_error : exn := Exn JSONDecodeError "Expecting value".

(** The [ValueError] of [int] on a numeral of [n] digits, [n > 4300]. *)
Definition int_limit_error (n : nat) : exn :=
  Exn ValueError
    ("Exceeds the limit (4300) for integer string conversion: value has "
     ++ show_nat n
     ++ " digits; use sys.set_int_max_str_digits() to increase the limit").

Definition is_ws (c : ascii) : bool :=
  let n := nat_of_ascii c in
  ((n =? 32) || (n =? 9) || (n =? 10) || (n =? 13))%nat.

Fixpoint skip_ws (s : string) : string :=
  match s with
  | String c s' => if is_ws c then skip_ws s' else s
  | EmptyString => EmptyString
  end.

(** Consume the literal [lit] from the front of [s]. *)
Definition expect (lit s : string) (v : json) : attempt (json * string) :=
  if startswith s lit then Ok (v, drop (String.length lit) s)
  else Raise syntax_error.

(** The digits at the front of [s]: their value, their number, the rest. *)
Fixpoint digits (s : string) (acc : Z) (count : nat) : Z * nat * string :=
  match s with
  | String c s' =>
      if is_digit_char c
      then digits s' (10 * acc + Z.of_nat (nat_of_ascii c - 48)) (S count)
      else (acc, count, s)
  | EmptyString => (acc, count, s)
  end.

Definition starts_fraction (s : string) : bool :=
  startswith s "." || startswith s "e" || startswith s "E".

(** An optional minus sign, then 0 or a numeral without leading zero;
    a fraction or exponent after it is refused, and so is a numeral of
    more than 4300 digits. *)
Definition number (s : string) : attempt (json * string) :=
  let (neg, s1) :=
    match s with
    | String "-"%char s' => (true, s')
    | _ => (false, s)
    end in
  match s1 with
  | String c s2 =>
      if is_digit_char c then
        let '(n, count, rest) :=
          if Ascii.eqb c "0"%char then (0, 1%nat, s2) else digits s1 0 0 in
        if starts_fraction rest then Raise syntax_error
        else if (4300 <? count)%nat then Raise (int_limit_error count)
        else Ok (JInt (if neg then - n else n), rest)
      else Raise syntax_error
  | EmptyString => Raise syntax_error
  end.

(** The characters of a string literal after its opening quote. *)
Fixpoint chars (s : string) : option (string * string) :=
  match s with
  | EmptyString => None
  | String c s' =>
      if Ascii.eqb c "034"%char then Some (EmptyString, s')
      else if Ascii.eqb c "\"%char then
        match s' with
        | String e s'' =>
            let esc (x : ascii) :=
              match chars s'' with
              | Some (r, rest) => Some (String x r, rest)
              | None => None
              end in
            if Ascii.eqb e "034"%char then esc "034"%char
            else if Ascii.eqb e "\"%char then esc "\"%char
            else if Ascii.eqb e "/"%char then esc "/"%char
            else if Ascii.eqb e "b"%char then esc "008"%char
            else if Ascii.eqb e "f"%char then esc "012"%char
            else if Ascii.eqb e "n"%char then esc "010"%char
            else if Ascii.eqb e "r"%char then esc "013"%char
            else if Ascii.eqb e "t"%char then esc "009"%char
            else None
        | EmptyString => None
        end
      else if (nat_of_ascii c <? 32)%nat then None
      else match chars s' with
           | Some (r, rest) => Some (String c r, rest)
           | None => None
           end
  end.

(** [d[k] = v] on the bindings of a dictionary. *)
Fixpoint dict_set (k : string) (v : json) (d : list (string * json))
  : list (string * json) :=
  match d with
  | [] => [(k, v)]
  | (k', v') :: d' =>
      if String.eqb k k' then (k, v) :: d' else (k', v') :: dict_set k v d'
  end.

Fixpoint value (fuel : nat) (s : string) : attempt (json * string) :=
  match fuel with
  | O => Raise syntax_error
  | S fuel' =>
      match skip_ws s with
      | String "n"%char _ => expect "null" (skip_ws s) JNull
      | String "t"%char _ => expect "true" (skip_ws s) (JBool true)
      | String "f"%char _ => expect "false" (skip_ws s) (JBool false)
      | String "034"%char s' =>
          match chars s' with
          | Some (str, rest) => Ok (JStr str, rest)
          | None => Raise syntax_error
          end
      | String "["%char s' =>
          match skip_ws s' with
          | String "]"%char rest => Ok (JList [], rest)
          | _ => match elements fuel' s' [] with
                 | Ok (items, rest) => Ok (JList items, rest)
                 | Raise e => Raise e
                 end
          end
      | String "{"%char s' =>
          match skip_ws s' with
          | String "}"%char rest => Ok (JDict [], rest)
          | _ => match members fuel' s' [] with
                 | Ok (fields, rest) => Ok (JDict fields, rest)
                 | Raise e => Raise e
                 end
          end
      | other => number other
      end
  end
with elements (fuel : nat) (s : string) (acc : list json)
  : attempt (list json * string) :=
  match fuel with
  | O => Raise syntax_error
  | S fuel' =>
      match value fuel' s with
      | Ok (v, rest) =>
          match skip_ws rest with
          | String ","%char rest' => elements fuel' rest' (acc ++ [v])%list
          | String "]"%char rest' => Ok ((acc ++ [v])%list, rest')
          | _ => Raise syntax_error
          end
      | Raise e => Raise e
      end
  end
with members (fuel : nat) (s : string) (acc : list (string * json))
  : attempt (list (string * json) * string) :=
  match fuel with
  | O => Raise syntax_error
  | S fuel' =>
      match skip_ws s with
      | String "034"%char s' =>
          match chars s' with
          | Some (k, rest) =>
              match skip_ws rest with
              | String ":"%char rest' =>
                  match value fuel' rest' with
                  | Ok (v, rest'') =>
                      match skip_ws rest'' with
                      | String ","%char r => members fuel' r (dict_set k v acc)
                      | String "}"%char r => Ok (dict_set k v acc, r)
                      | _ => Raise syntax_error
                      end
                  | Raise e => Raise e
                  end
              | _ => Raise syntax_error
              end
          | None => Raise syntax_error
          end
      | _ => Raise syntax_error
      end
  end.

Definition loads (s : string) : attempt json :=
  match value (2 * String.length s + 2) s with
  | Ok (v, rest) =>
      match skip_ws rest with
      | EmptyString => Ok v
      | _ => Raise syntax_error
      end
  | Raise e => Raise e
  end.

End Decoder.

(** ** The network *)

Inductive http_method : Type := GET | POST.

(** What the client hands to [aiohttp]: the verb, the URL and the [json=]
    payload. *)
Record http_request : Type :=
  { verb : http_method; url : string; payload : option json }.

(** What comes back.  [Refused e]: the request itself raises [e].
    [Answered status body broken]: a response with this status whose body
    delivers [body]; when [broken] is [Some e], reading past [body] raises [e]
    (a connection lost in mid-stream, a read timeout, an undecodable line)
    instead of reporting end of stream. *)
Inductive outcome : Type :=
| Refused (e : exn)
| Answered (status : Z) (body : string) (broken : option exn).

(** ** State *)

(** The attributes of a [HuskyLensMCPClient] whose [ClientSession] exists. *)
Record client : Type :=
  { server_url : string;
    request_id : Z;
    session_id : option string;
    message_url : option string }.

(** [clock] counts the network operations so far, [sent] records them. *)
Record state : Type :=
  { self : client; clock : nat; sent : list http_request }.

(** [server_url.rstrip('/')] *)
Fixpoint rstrip_slash (s : string) : string :=
  match s with
  | EmptyString => EmptyString
  | String c s' =>
      match rstrip_slash s' with
      | EmptyString =>
          if Ascii.eqb c "/"%char then EmptyString else String c EmptyString
      | r => String c r
      end
  end.

(** [HuskyLensMCPClient.__init__] *)
Definition init_client (url : string) : client :=
  {| server_url := rstrip_slash url;
     request_id := 0;
     session_id := None;
     message_url := None |}.

Definition init_state (url : string) : state :=
  {| self := init_client url; clock := O; sent := [] |}.

(** [not self.message_url]: [None] and the empty string are false. *)
Definition url_unset (u : option string) : bool :=
  match u with
  | None => true
  | Some s => String.eqb s ""
  end.

Definition url_text (u : option string) : string :=
  match u with Some s => s | None => "" end.

(** ** The monad of client methods *)

Definition M (A : Type) : Type := state -> attempt A * state.

Definition ret {A} (a : A) : M A := fun st => (Ok a, st).

Definition raise {A} (e : exn) : M A := fun st => (Raise e, st).

Definition bind {A B} (m : M A) (k : A -> M B) : M B :=
  fun st =>
    match m st with
    | (Ok a, st') => k a st'
    | (Raise e, st') => (Raise e, st')
    end.

(** [try: m  except Exception as e: handler e] *)
Definition try_except {A} (m : M A) (handler : exn -> M A) : M A :=
  fun st =>
    match m st with
    | (Ok a, st') => (Ok a, st')
    | (Raise e, st') => handler e st'
    end.

Definition lift {A} (r : attempt A) : M A := fun st => (r, st).

Definition get_self : M client := fun st => (Ok (self st), st).

Definition set_self (c : client) : M unit :=
  fun st => (Ok tt, {| self := c; clock := clock st; sent := sent st |}).

Declare Scope client_scope.
Delimit Scope client_scope with client.
Notation "x <- m ;; k" := (bind m (fun x => k))
  (at level 100, m at next level, right associativity) : client_scope.
Notation "m ;;; k" := (bind m (fun _ => k))
  (at level 100, right associativity) : client_scope.
Open Scope client_scope.

(** ** The regular expression [session_id=([a-f0-9-]+)] *)

Definition is_token_char (c : ascii) : bool :=
  let n := nat_of_ascii c in
  ((97 <=? n) && (n <=? 102) || (48 <=? n) && (n <=? 57) || (n =? 45))%nat.

(** The longest run of token characters at the front of [s]. *)
Fixpoint token_prefix (s : string) : string :=
  match s with
  | String c s' =>
      if is_token_char c then String c (token_prefix s') else EmptyString
  | EmptyString => EmptyString
  end.

(** The match at the front of [s], if there is one: group 1. *)
Definition match_here (s : string) : option string :=
  if startswith s "session_id=" then
    match token_prefix (drop 11 s) with
    | EmptyString => None
    | tok => Some tok
    end
  else None.

(** [re.search(r'session_id=([a-f0-9-]+)', s)]: group 1 of the leftmost
    match. *)
Fixpoint re_search_session_id (s : string) : option string :=
  match match_here s with
  | Some tok => Some tok
  | None =>
      match s with
      | EmptyString => None
      | String _ s' => re_search_session_id s'
      end
  end.

(** The body of the [async for] loop in [_establish_session] on one line:
    [Some c'] when the line sets the attributes (giving [c']) and breaks,
    [None] when the loop goes on to the next line. *)
Definition session_of_line (c : client) (line : string) : option client :=
  let line_text := strip line in
  if startswith line_text "data: " then
    let data_str := drop 6 line_text in
    if contains data_str "session_id=" then
      match re_search_session_id data_str with
      | Some sid =>
          Some {| server_url := server_url c;
                  request_id := request_id c;
                  session_id := Some sid;
                  message_url := Some (server_url c ++ data_str) |}
      | None => None
      end
    else if startswith data_str "/message" then
      Some {| server_url := server_url c;
              request_id := request_id c;
              session_id := session_id c;
              message_url := Some (server_url c ++ data_str) |}
    else None
  else None.

(** ** [HuskyLensMCPClient] *)

Section Client.

(** [json.loads]: the document, or the exception it raises. *)
Variable json_loads : string -> attempt json.

(** The upstream device: the outcome of the n-th network operation. *)
Variable net : nat -> outcome.

(** [self.session.get(...)] and [self.session.post(...)]. *)
Definition http (r : http_request) : M outcome :=
  fun st =>
    (Ok (net (clock st)),
     {| self := self st; clock := S (clock st); sent := (sent st ++ [r])%list |}).

(** [async for line in response.content] of [_establish_session]. *)
Fixpoint session_scan (lines : list string) (broken : option exn) : M unit :=
  match lines with
  | [] =>
      match broken with
      | Some e => raise e
      | None => ret tt
      end
  | line :: rest =>
      c <- get_self ;;
      match session_of_line c line with
      | Some c' => set_self c'                    (* break *)
      | None => session_scan rest broken
      end
  end.

Definition _establish_session : M unit :=
  try_except
    (c <- get_self ;;
     out <- http {| verb := GET; url := server_url c ++ "/sse";
                    payload := None |} ;;
     match out with
     | Refused e => raise e
     | Answered _ body broken => session_scan (iter_lines body) broken
     end)
    (fun e => raise e).                           (* logged, then re-raised *)

Definition _get_next_id : M Z :=
  c <- get_self ;;
  let c' := {| server_url := server_url c;
               request_id := request_id c + 1;
               session_id := session_id c;
               message_url := message_url c |} in
  set_self c' ;;;
  ret (request_id c').

(** The [for line in lines] loop of [call_tool] over a data-prefixed
    body.  Falling off the end of the loop falls off the end of
    [call_tool]: the value is [None]. *)
Fixpoint post_body_scan (lines : list string) : attempt json :=
  match lines with
  | [] => Ok JNull
  | line :: rest =>
      if startswith line "data: "
         && negb (String.eqb (strip (drop 6 line)) "[DONE]")
      then
        (* try: result = json.loads(...)
                return self._process_tool_response(result)
           except json.JSONDecodeError: continue *)
        match json_loads (drop 6 line) with
        | Ok result =>
            match _process_tool_response result with
            | Ok v => Ok v
            | Raise e =>
                if is_decode_error e then post_body_scan rest else Raise e
            end
        | Raise e =>
            if is_decode_error e then post_body_scan rest else Raise e
        end
      else post_body_scan rest
  end.

(** The [async for] loop of [_call_tool_via_sse]: [full_response] after
    the loop. *)
Fixpoint sse_scan (request_id : Z) (lines : list string)
    (broken : option exn) : attempt json :=
  match lines with
  | [] =>
      match broken with
      | Some e => Raise e
      | None => Ok (JDict [])
      end
  | line :: rest =>
      let line_text := strip line in
      if startswith line_text "data: " then
        let data_str := drop 6 line_text in
        if String.eqb data_str "[DONE]" then Ok (JDict [])      (* break *)
        else
          match json_loads data_str with
          | Ok data =>
              match data with
              | JDict fields =>
                  if eq_int (dict_get_default "id" JNull fields) request_id
                  then Ok data                                  (* break *)
                  else sse_scan request_id rest broken
              | _ => sse_scan request_id rest broken
              end
          | Raise e =>
              if is_decode_error e then       (* except json.JSONDecodeError *)
                if isdigit data_str
                then sse_scan request_id rest broken            (* continue *)
                else sse_scan request_id rest broken            (* logged *)
              else Raise e                    (* leaves the loop and the try *)
          end
      else sse_scan request_id rest broken
  end.

Definition _call_tool_via_sse (tool_name arguments : json) : M json :=
  request_id <- _get_next_id ;;
  let request := tools_call_request tool_name arguments request_id in
  try_except
    (c <- get_self ;;
     out <- http {| verb := POST; url := server_url c ++ "/sse";
                    payload := Some request |} ;;
     match out with
     | Refused e => raise e
     | Answered _ body broken =>
         full_response <- lift (sse_scan request_id (iter_lines body) broken) ;;
         if truthy full_response
         then lift (_process_tool_response full_response)
         else ret (error_envelope "No response received")
     end)
    (fun e => ret (error_envelope (message e))).

(** [call_tool] from [request_id = self._get_next_id()] on. *)
Definition call_tool_send (tool_name arguments : json) : M json :=
  request_id <- _get_next_id ;;
  let request := tools_call_request tool_name arguments request_id in
  try_except
    (c <- get_self ;;
     out <- http {| verb := POST; url := url_text (message_url c);
                    payload := Some request |} ;;
     match out with
     | Refused e => raise e
     | Answered status body broken =>
         if status =? 200 then
           (* result_text = await response.text() *)
           match broken with
           | Some e => raise e
           | None =>
               let result_text := body in
               if startswith result_text "data: " then
                 lift (post_body_scan (split_lines result_text))
               else
                 (* try: result = json.loads(result_text)
                         return self._process_tool_response(result)
                    except json.JSONDecodeError:
                         return await self._call_tool_via_sse(...) *)
                 match json_loads result_text with
                 | Ok result =>
                     match _process_tool_response result with
                     | Ok v => ret v
                     | Raise e =>
                         if is_decode_error e
                         then _call_tool_via_sse tool_name arguments
                         else raise e
                     end
                 | Raise e =>
                     if is_decode_error e
                     then _call_tool_via_sse tool_name arguments
                     else raise e
                 end
           end
         else ret (error_envelope ("HTTP " ++ show_int status))
     end)
    (fun e =>
       if is_timeout e then ret (error_envelope "Request timeout")
       else
         _establish_session ;;;
         ret (error_envelope (message e))).

Definition call_tool (tool_name arguments : json) : M json :=
  c <- get_self ;;
  if url_unset (message_url c) then
    _establish_session ;;;
    c' <- get_self ;;
    if url_unset (message_url c')
    then ret (error_envelope "Failed to establish session")
    else call_tool_send tool_name arguments
  else call_tool_send tool_name arguments.

Definition list_tools : M json :=
  _call_tool_via_sse (JStr "tools") (JDict [("operation", JStr "list")]).

(** [start], after the [ClientSession] is created. *)
Definition start : M unit := _establish_session.

End Client.

(** ** [BridgeServer] *)

Inductive web_body : Type :=
| JsonBody (data : json)      (* the document [json.dumps] serialises *)
| TextBody (text : string)
| NoBody.                     (* [text=None]: nothing is written *)

Record web_response : Type :=
  { status_code : Z; content_type : string; web_content : web_body }.

(** [web.json_response(data, status=status)] *)
Definition json_response (data : json) (status : Z) : web_response :=
  {| status_code := status;
     content_type := "application/json";
     web_content := JsonBody data |}.

(** [web.Response(text=text, content_type='text/plain')] *)
Definition text_response (text : string) : web_response :=
  {| status_code := 200;
     content_type := "text/plain";
     web_content := TextBody text |}.

(** [web.Response(text=None, content_type='text/plain')] *)
Definition empty_response : web_response :=
  {| status_code := 200;
     content_type := "text/plain";
     web_content := NoBody |}.

Section Server.

Variable json_loads : string -> attempt json.
Variable net : nat -> outcome.

(** [handle_tool_call] after [call_tool] has returned [result]. *)
Definition render_result (result : json) : attempt web_response :=
  match py_in "result" result with
  | Raise e => Raise e
  | Ok false => Ok (json_response result 200)
  | Ok true =>
      match py_getitem result "result" with
      | Raise e => Raise e
      | Ok inner =>
          match py_in "content" inner with
          | Raise e => Raise e
          | Ok false => Ok (json_response result 200)
          | Ok true =>
              match py_getitem inner "content" with
              | Raise e => Raise e
              | Ok (JStr content) =>
                  (* try: parsed = json.loads(content)
                     except (json.JSONDecodeError, TypeError): plain text *)
                  match json_loads content with
                  | Ok parsed => Ok (json_response parsed 200)
                  | Raise e =>
                      match cls e with
                      | JSONDecodeError | TypeError =>
                          Ok (text_response content)
                      | _ => Raise e
                      end
                  end
              | Ok JNull =>
                  (* json.loads(None) raises TypeError, which is caught;
                     web.Response(text=None) has no body *)
                  Ok empty_response
              | Ok content =>
                  (* json.loads raises TypeError, which is caught; then
                     web.Response refuses a text that is not a str *)
                  Raise (Exn TypeError
                           ("text argument must be str (<class '"
                            ++ type_name content ++ "'>)"))
              end
          end
      end
  end.

(** [handle_tool_call]; [body] is the text of the request, which
    [request.json()] decodes. *)
Definition handle_tool_call (body : string) : M web_response :=
  try_except
    (data <- lift (json_loads body) ;;
     tool_name <- lift (py_get data "tool" JNull) ;;
     arguments <- lift (py_get data "arguments" (JDict [])) ;;
     if negb (truthy tool_name) then
       ret (json_response
              (JDict [("error", JStr "Missing 'tool' parameter")]) 400)
     else
       result <- call_tool json_loads net tool_name arguments ;;
       lift (render_result result))
    (fun e =>
       match cls e with
       | JSONDecodeError =>
           ret (json_response (JDict [("error", JStr "Invalid JSON")]) 400)
       | _ =>
           ret (json_response (JDict [("error", JStr (message e))]) 500)
       end).

(** [handle_list_tools] *)
Definition handle_list_tools : M web_response :=
  try_except
    (result <- list_tools json_loads net ;;
     ret (json_response result 200))
    (fun e => ret (json_response (JDict [("error", JStr (message e))]) 500)).

End Server.

(** ** Runs of a client

    A process is a sequence of operations on one client. *)
Inductive operation : Type :=
| OpStart
| OpCallTool (tool_name arguments : json)
| OpListTools.

Section Runs.

Variable json_loads : string -> attempt json.
Variable net : nat -> outcome.

(** One operation; an exception it raises ends the operation, not the
    process, and the state it left stays. *)
Definition run_operation (op : operation) (st : state) : state :=
  match op with
  | OpStart => snd (start net st)
  | OpCallTool tool_name arguments =>
      snd (call_tool json_loads net tool_name arguments st)
  | OpListTools => snd (list_tools json_loads net st)
  end.

Definition run (ops : list operation) (st : state) : state :=
  fold_left (fun st op => run_operation op st) ops st.

End Runs.

(** The correlation ids of the requests sent, oldest first. *)
Definition request_ids (reqs : list http_request) : list Z :=
  flat_map
    (fun r =>
       match payload r with
       | Some (JDict fields) =>
           match dict_get "id" fields with
           | Some (JInt n) => [n]
           | _ => []
           end
       | _ => []
       end)
    reqs.

(** The requests the client makes. *)
Definition sse_request (c : client) : http_request :=
  {| verb := GET; url := server_url c ++ "/sse"; payload := None |}.

Definition message_post (c : client) (request : json) : http_request :=
  {| verb := POST; url := url_text (message_url c); payload := Some request |}.

Definition sse_post (c : client) (request : json) : http_request :=
  {| verb := POST; url := server_url c ++ "/sse"; payload := Some request |}.

(** The state once request [r] has gone out. *)
Definition after_request (st : state) (r : http_request) : state :=
  {| self := self st; clock := S (clock st); sent := (sent st ++ [r])%list |}.

(** The client once the next correlation id is taken. *)
Definition with_next_id (c : client) : client :=
  {| server_url := server_url c;
     request_id := request_id c + 1;
     session_id := session_id c;
     message_url := message_url c |}.

(** Every id sent so far is accounted for by the counter: the ids are
    exactly 1, 2, ..., [request_id]. *)
Definition ids_ok (st : state) : Prop :=
  0 <= request_id (self st) /\
  request_ids (sent st)
  = map Z.of_nat (seq 1 (Z.to_nat (request_id (self st)))).

(** ** Vocabulary of the properties *)

(** [r >>= f] on fallible values: normalising twice is
    [and_then (_process_tool_response r) _process_tool_response]. *)
Definition and_then {A B} (r : attempt A) (f : A -> attempt B) : attempt B :=
  match r with
  | Ok a => f a
  | Raise e => Raise e
  end.

(** A text-typed content item: a mapping whose [type] is ["text"]. *)
Definition is_text_item (item : json) : bool :=
  match item with
  | JDict fields => eq_str (dict_get_default "type" JNull fields) "text"
  | _ => false
  end.

(** The text of a content item ([""] when it has no [text] member). *)
Definition item_text (item : json) : json :=
  match item with
  | JDict fields => dict_get_default "text" (JStr "") fields
  | _ => JStr ""
  end.

(** A content field that is neither a list nor a string, or is absent. *)
Definition content_unusable (content : option json) : Prop :=
  match content with
  | Some (JList _) => False
  | Some (JStr _) => False
  | _ => True
  end.

(** The data payload of a stream line as [_call_tool_via_sse] reads it. *)
Definition data_payload (line : string) : option string :=
  let line_text := strip line in
  if startswith line_text "data: " then Some (drop 6 line_text) else None.

(** The stream's terminal line. *)
Definition sentinel (line : string) : bool :=
  match data_payload line with
  | Some d => String.eqb d "[DONE]"
  | None => false
  end.

Section ScanVocabulary.

Variable json_loads : string -> attempt json.

(** The object by which [line] answers request [id]: its payload is not
    the sentinel and decodes to an object whose id equals [id]. *)
Definition answer (id : Z) (line : string) : option (list (string * json)) :=
  match data_payload line with
  | None => None
  | Some d =>
      if String.eqb d "[DONE]" then None
      else match json_loads d with
           | Ok (JDict fields) =>
               if eq_int (dict_get_default "id" JNull fields) id
               then Some fields else None
           | _ => None
           end
  end.

(** The exception with which the decoder fails on the payload of [line],
    when the payload is not the sentinel and the exception is not a
    [json.JSONDecodeError]. *)
Definition decoder_failure (line : string) : option exn :=
  match data_payload line with
  | None => None
  | Some d =>
      if String.eqb d "[DONE]" then None
      else match json_loads d with
           | Raise e => if is_decode_error e then None else Some e
           | Ok _ => None
           end
  end.

(** A line that is neither the sentinel nor an answer to request [id],
    and on which the decoder does not fail in that way. *)
Definition skipped (id : Z) (line : string) : bool :=
  negb (sentinel line)
  && match answer id line with Some _ => false | None => true end
  && match decoder_failure line with Some _ => false | None => true end.

End ScanVocabulary.

(** What a call makes of the outcome of normalization. *)
Definition resolved (r : attempt json) : json :=
  match r with
  | Ok v => v
  | Raise e => error_envelope (message e)
  end.

(** ** Worked scenarios *)

Definition device_url : string := "http://192.168.1.161:3000".

Definition quoted (s : string) : string := dq ++ s ++ dq.

(** A client with an established session that has sent nothing yet. *)
Definition connected : state :=
  {| self := {| server_url := device_url;
                request_id := 0;
                session_id := Some "3f2a-91bc";
                message_url :=
                  Some (device_url ++ "/message?session_id=3f2a-91bc") |};
     clock := O;
     sent := [] |}.

Definition tool : json := JStr "get_recognition_result".
Definition tool_arguments : json := JDict [("operation", JStr "get_result")].

(** A session stream that ends without announcing a session. *)
Definition silent_stream : string :=
  ": keep-alive" ++ nl ++ "event: ping" ++ nl ++ "data: hello" ++ nl.

Definition silent_device (n : nat) : outcome :=
  Answered 200 silent_stream None.

(** A data-prefixed POST body with no payload before its sentinel. *)
Definition done_only_body : string :=
  "data: processing" ++ nl ++ "data: [DONE]" ++ nl.

Definition done_only_device (n : nat) : outcome :=
  Answered 200 done_only_body None.

(** A device that cannot be reached. *)
Definition connection_error : exn :=
  Exn TransportError "Cannot connect to host 192.168.1.161:3000".

Definition unreachable_device (n : nat) : outcome := Refused connection_error.

(** The answer to request 1, as a stream line. *)
Definition answer_payload : string :=
  "{" ++ quoted "id" ++ ": 1, " ++ quoted "result" ++ ": {"
  ++ quoted "content" ++ ": " ++ quoted "ready" ++ "}}".

Definition answer_line : string := "data: " ++ answer_payload ++ nl.

Definition answer_fields : list (string * json) :=
  [("id", JInt 1); ("result", JDict [("content", JStr "ready")])].

(** A bare number and an undecodable line before the answer. *)
Definition noisy_lines : list string :=
  ["data: 1" ++ nl; "data: not json" ++ nl].

Definition noisy_stream : string :=
  "data: 1" ++ nl ++ "data: not json" ++ nl ++ answer_line.

Definition noisy_device (n : nat) : outcome := Answered 200 noisy_stream None.

(** The sentinel before the answer. *)
Definition sentinel_first_stream : string :=
  "data: [DONE]" ++ nl ++ answer_line.

Definition sentinel_first_device (n : nat) : outcome :=
  Answered 200 sentinel_first_stream None.

(** A POST body that is neither data-prefixed nor JSON. *)
Definition undecodable_device (n : nat) : outcome :=
  match n with
  | O => Answered 200 "accepted" None
  | _ => Answered 200 "" None
  end.

(** A content text item, a resource link, and sample responses. *)
Definition text_item (s : string) : json :=
  JDict [("type", JStr "text"); ("text", JStr s)].

Definition resource_item : json :=
  JDict [("type", JStr "resource_link"); ("name", JStr "frame");
         ("uri", JStr "file:///tmp/frame.png")].

Definition sample_content : list json :=
  [text_item "a"; resource_item; JInt 3; text_item "b"].

Definition sample_response : list (string * json) :=
  [("jsonrpc", JStr "2.0"); ("id", JInt 7);
   ("result", JDict [("content", JList sample_content)])].

Definition sample_odd_result : list (string * json) :=
  [("isError", JBool true); ("content", JInt 5)].

Definition sample_odd_response : list (string * json) :=
  [("id", JInt 9); ("result", JDict sample_odd_result)].

(** ** The remaining handlers of [BridgeServer] *)

(** [self.mcp_client.session_id is not None] *)
Definition session_established (c : client) : bool :=
  match session_id c with Some _ => true | None => false end.

(** [handle_health] *)
Definition handle_health : M web_response :=
  c <- get_self ;;
  ret (json_response
         (JDict [("status", JStr "healthy");
                 ("mcp_server", JStr (server_url c));
                 ("session_established", JBool (session_established c))])
         200).

(** [handle_info] *)
Definition handle_info : M web_response :=
  c <- get_self ;;
  ret (json_response
         (JDict [("name", JStr "HuskyLens MCP Bridge");
                 ("version", JStr "1.0.0");
                 ("description", JStr "Bridge for HuskyLens2 MCP server");
                 ("mcp_server", JStr (server_url c));
                 ("session_id",
                  match session_id c with Some sid => JStr sid | None => JNull end);
                 ("endpoints",
                  JDict [("/", JStr "This info page");
                         ("/health", JStr "Health check");
                         ("/tools", JStr "List available tools");
                         ("/call", JStr "Call a tool (POST)")])])
         200).

(** ** Further vocabulary *)

(** Every character is one of [a-f0-9-]. *)
Fixpoint all_token_chars (s : string) : bool :=
  match s with
  | EmptyString => true
  | String c s' => is_token_char c && all_token_chars s'
  end.

(** The exception with which a POST to the message endpoint fails inside
    the [try] of [call_tool]: the request raises, or the status is 200 and
    reading the body raises. *)
Definition post_failure (o : outcome) : option exn :=
  match o with
  | Refused e => Some e
  | Answered status _ (Some e) => if status =? 200 then Some e else None
  | Answered _ _ None => None
  end.

(** The exception with which a GET of the session endpoint fails. *)
Definition stream_failure (o : outcome) : option exn :=
  match o with
  | Refused e => Some e
  | Answered _ _ broken => broken
  end.

(** The document a line of a data-prefixed POST body contributes, as the
    loop of [call_tool] reads it: the line is data-prefixed, its payload is
    not the sentinel, and it decodes. *)
Definition post_payload (json_loads : string -> attempt json) (line : string)
  : option json :=
  if startswith line "data: "
     && negb (String.eqb (strip (drop 6 line)) "[DONE]")
  then match json_loads (drop 6 line) with
       | Ok r => Some r
       | Raise _ => None
       end
  else None.

(** A line the loop of [call_tool] passes over: it is not data-prefixed,
    or its payload is the sentinel, or the decoder rejects the payload with
    [json.JSONDecodeError]. *)
Definition no_payload (json_loads : string -> attempt json) (line : string)
  : bool :=
  if startswith line "data: "
     && negb (String.eqb (strip (drop 6 line)) "[DONE]")
  then match json_loads (drop 6 line) with
       | Ok _ => false
       | Raise e => is_decode_error e
       end
  else true.

(** No session line: the loop of [_establish_session] goes on. *)
Definition no_session (c : client) (line : string) : bool :=
  match session_of_line c line with Some _ => false | None => true end.

(** What the attributes of a client never lose: the base URL, a message
    endpoint once known, a session id once known, and the count of ids. *)
Definition extends (c c' : client) : Prop :=
  server_url c' = server_url c /\
  (url_unset (message_url c) = false -> url_unset (message_url c') = false) /\
  (session_established c = true -> session_established c' = true) /\
  request_id c <= request_id c'.

(** The state after the first POST of a call. *)
Definition after_post (st : state) (tool_name arguments : json) : state :=
  {| self := with_next_id (self st);
     clock := S (clock st);
     sent := (sent st
              ++ [message_post (self st)
                    (tools_call_request tool_name arguments
                       (request_id (self st) + 1))])%list |}.

(** The state after the POST of the stream fallback. *)
Definition after_sse_post (st : state) (tool_name arguments : json) : state :=
  {| self := with_next_id (self st);
     clock := S (clock st);
     sent := (sent st
              ++ [sse_post (self st)
                    (tools_call_request tool_name arguments
                       (request_id (self st) + 1))])%list |}.

(** ** Further scenarios *)

Definition timeout_error : exn := Exn TimeoutError "".

Definition call_body : string :=
  "{" ++ quoted "tool" ++ ": " ++ quoted "get_recognition_result" ++ ", "
  ++ quoted "arguments" ++ ": {" ++ quoted "operation" ++ ": "
  ++ quoted "get_result" ++ "}}".

(** A session stream that announces a session, then goes on and breaks. *)
Definition token_line : string := "data: /message?session_id=3f2a-91bc" ++ nl.

Definition token_stream : string :=
  "event: endpoint" ++ nl ++ token_line ++ "data: later" ++ nl.

Definition token_device (n : nat) : outcome :=
  match n with
  | O => Answered 200 token_stream (Some connection_error)
  | _ => Answered 200 (answer_payload) None
  end.

(** A session stream that names the message endpoint without a session id. *)
Definition path_stream : string := ": hello" ++ nl ++ "data: /message" ++ nl.

Definition path_device (n : nat) : outcome := Answered 200 path_stream None.

Definition unavailable_device (n : nat) : outcome :=
  Answered 503 "Service Unavailable" None.

Definition timeout_device (n : nat) : outcome := Refused timeout_error.

(** A device that drops the POST and then serves a silent session stream. *)
Definition flaky_device (n : nat) : outcome :=
  match n with
  | O => Refused connection_error
  | _ => Answered 200 silent_stream None
  end.

(** A device that answers a POST directly. *)
Definition direct_device (n : nat) : outcome := Answered 200 answer_payload None.

(** A data-prefixed body: the sentinel first, then the answer to another
    request. *)
Definition other_answer_payload : string :=
  "{" ++ quoted "id" ++ ": 99, " ++ quoted "result" ++ ": {"
  ++ quoted "content" ++ ": " ++ quoted "ready" ++ "}}".

Definition sse_body : string :=
  "data: [DONE]" ++ nl ++ "data: " ++ other_answer_payload.

Definition sse_body_device (n : nat) : outcome := Answered 200 sse_body None.

(** A device that answers a POST with a bare number. *)
Definition number_device (n : nat) : outcome :=
  match n with
  | O => Answered 200 "12" None
  | _ => Answered 200 silent_stream None
  end.

(** A device whose answer carries JSON text as content. *)
Definition json_content_payload : string :=
  "{" ++ quoted "result" ++ ": {" ++ quoted "content" ++ ": "
  ++ quoted ("{\" ++ quoted "a\" ++ ": 1}") ++ "}}".

Definition json_content_device (n : nat) : outcome :=
  Answered 200 json_content_payload None.

(** A response with a text item whose text is a number. *)
Definition sample_bad_response : list (string * json) :=
  [("id", JInt 4);
   ("result",
    JDict [("content",
            JList [text_item "a";
                   JDict [("type", JStr "text"); ("text", JInt 5)]])])].

(** A response that carries an error member beside a result with two text
    items, and one beside a result whose content is a number. *)
Definition sample_error_response : list (string * json) :=
  [("error", JNull); ("id", JInt 7);
   ("result", JDict [("content", JList [text_item "a"; text_item "b"])])].

Definition sample_error_odd_response : list (string * json) :=
  [("error", JNull); ("id", JInt 9);
   ("result", JDict [("content", JInt 5)])].

(** A numeral of 4301 digits, which [json.loads] gives up on with a
    [ValueError]. *)
Definition long_numeral : string := String.concat "" (repeat "1" 4301).

(** A stream with such a line between a bare number and the answer. *)
Definition overlong_stream : string :=
  "data: 1" ++ nl ++ "data: " ++ long_numeral ++ nl ++ answer_line.

Definition overlong_device (n : nat) : outcome :=
  Answered 200 overlong_stream None.

(** A device whose answer carries a numeral of 4301 digits as content. *)
Definition long_content_payload : string :=
  "{" ++ quoted "result" ++ ": {" ++ quoted "content" ++ ": "
  ++ quoted long_numeral ++ "}}".

Definition long_content_device (n : nat) : outcome :=
  Answered 200 long_content_payload None.

(** * Normalization *)

Lemma collect_text_parts_spec (items : list json) :
  forall acc,
    collect_text_parts items acc
    = (acc ++ map item_text (filter is_text_item items))%list.
Proof.
  induction items as [|item rest IH]; intros acc; simpl.
  - now rewrite app_nil_r.
  - destruct item; simpl; try apply IH.
    destruct (eq_str (dict_get_default "type" JNull fields) "text").
    + rewrite IH. simpl. now rewrite <- app_assoc.
    + destruct (eq_str _ "resource_link"); apply IH.
Qed.

Lemma join_from_strings (sep : string) (strs : list string) :
  forall i, join_from i sep (map JStr strs) = Ok (String.concat sep strs).
Proof.
  induction strs as [|s rest IH]; intros i; [reflexivity|].
  destruct rest as [|s' rest']; [reflexivity|].
  cbn [map join_from String.concat] in *.
  now rewrite IH.
Qed.

Lemma normalized_again (id is_error : json) (text : string) :
  _process_tool_response (normalized_envelope id is_error text)
  = Ok (normalized_envelope id is_error text).
Proof. reflexivity. Qed.

(** C7. Normalization is idempotent: normalizing the result of a
    normalization gives the same outcome as normalizing once, for every
    decoded response; a response that normalization rejects with an
    exception is rejected by both sides with that exception. *)
Theorem normalization_idempotent (response : json) :
  and_then (_process_tool_response response) _process_tool_response
  = _process_tool_response response.
Proof.
  destruct (_process_tool_response response) as [r|e] eqn:Hr; [|reflexivity].
  simpl. revert Hr. unfold _process_tool_response at 1.
  destruct (py_in "error" response) as [[|]|e] eqn:Hin; try discriminate.
  - intros [= <-]. unfold _process_tool_response. now rewrite Hin.
  - destruct (py_get response "result" (JDict [])) as [res|e] eqn:Hget;
      try discriminate.
    assert (Hsame : _process_tool_response response = Ok response ->
                    Ok response = Ok r -> _process_tool_response r = Ok r).
    { now intros H [= <-]. }
    destruct res;
      try (apply Hsame; unfold _process_tool_response;
           now rewrite Hin, Hget).
    destruct (str_join nl _) as [text|e]; try discriminate.
    destruct (py_get response "id" JNull) as [id|e]; try discriminate.
    intros [= <-]. apply normalized_again.
Qed.

Lemma success_envelope_result (response result : list (string * json)) :
  dict_get "error" response = None ->
  dict_get "result" response = Some (JDict result) ->
  _process_tool_response (JDict response)
  = match str_join nl
            match dict_get_default "content" (JList []) result with
            | JList items => collect_text_parts items []
            | JStr s => [JStr s]
            | _ => []
            end
    with
    | Ok combined_text =>
        Ok (normalized_envelope
              (dict_get_default "id" JNull response)
              (dict_get_default "isError" (JBool false) result)
              combined_text)
    | Raise e => Raise e
    end.
Proof.
  intros Herr Hres. unfold _process_tool_response, py_in, py_get.
  unfold dict_get_default at 1. rewrite Herr, Hres.
  destruct (str_join nl _); reflexivity.
Qed.

(** C8, amended. For a response with no error member whose result is a
    mapping with a content list in which the text of every text-typed item
    is a string, the fragments collected are the texts of the text-typed
    items, in order, and nothing of the other items; normalization succeeds
    and returns the envelope whose content is these texts joined by
    newlines, whatever the other items are. *)
Theorem content_list_joined
    (response result : list (string * json)) (items : list json)
    (strs : list string) :
  dict_get "error" response = None ->
  dict_get "result" response = Some (JDict result) ->
  dict_get "content" result = Some (JList items) ->
  map item_text (filter is_text_item items) = map JStr strs ->
  collect_text_parts items [] = map JStr strs /\
  _process_tool_response (JDict response)
  = Ok (JDict [("jsonrpc", JStr "2.0");
               ("id", dict_get_default "id" JNull response);
               ("result",
                JDict [("isError",
                        dict_get_default "isError" (JBool false) result);
                       ("content", JStr (String.concat nl strs))])]).
Proof.
  intros Herr Hres Hcontent Htexts.
  assert (Hparts : collect_text_parts items [] = map JStr strs).
  { rewrite collect_text_parts_spec. simpl. exact Htexts. }
  split; [exact Hparts|].
  rewrite (success_envelope_result _ _ Herr Hres).
  unfold dict_get_default at 1. rewrite Hcontent, Hparts.
  unfold str_join. now rewrite join_from_strings.
Qed.

Lemma content_list_joined_witness :
  collect_text_parts sample_content [] = [JStr "a"; JStr "b"] /\
  _process_tool_response (JDict sample_response)
  = Ok (JDict [("jsonrpc", JStr "2.0");
               ("id", JInt 7);
               ("result",
                JDict [("isError", JBool false);
                       ("content", JStr ("a" ++ nl ++ "b"))])]).
Proof.
  exact (content_list_joined sample_response
           [("content", JList sample_content)] sample_content ["a"; "b"]
           eq_refl eq_refl eq_refl eq_refl).
Defined.

(** C8 as stated fails, at two responses whose result is a mapping with a
    content list.  One carries an error member beside its result: it is
    returned as it is, with its list of items and no joined text.  The
    other has a text-typed item whose text is a number: the join raises
    TypeError and normalization fails. *)
Lemma content_list_not_always_joined :
  (dict_get "result" sample_error_response
   = Some (JDict [("content", JList [text_item "a"; text_item "b"])]) /\
   _process_tool_response (JDict sample_error_response)
   = Ok (JDict sample_error_response)) /\
  (dict_get "result" sample_bad_response
   = Some (JDict [("content",
                   JList [text_item "a";
                          JDict [("type", JStr "text"); ("text", JInt 5)]])])
   /\
   _process_tool_response (JDict sample_bad_response)
   = Raise (Exn TypeError
              "sequence item 1: expected str instance, int found")).
Proof. vm_compute. repeat split. Qed.

(** C10, amended. For a response with no error member whose result is
    a mapping and whose content field is neither a list nor a string (or is
    absent), normalization succeeds and returns the envelope with empty
    content, the result's error flag and the response's correlation id;
    the value differs from the response. *)
Theorem unusable_content_empty (response result : list (string * json)) :
  dict_get "error" response = None ->
  dict_get "result" response = Some (JDict result) ->
  content_unusable (dict_get "content" result) ->
  _process_tool_response (JDict response)
  = Ok (JDict [("jsonrpc", JStr "2.0");
               ("id", dict_get_default "id" JNull response);
               ("result",
                JDict [("isError",
                        dict_get_default "isError" (JBool false) result);
                       ("content", JStr "")])]) /\
  _process_tool_response (JDict response) <> Ok (JDict response).
Proof.
  intros Herr Hres Hcontent.
  assert (Hnorm : _process_tool_response (JDict response)
                  = Ok (normalized_envelope
                          (dict_get_default "id" JNull response)
                          (dict_get_default "isError" (JBool false) result)
                          "")).
  { rewrite (success_envelope_result _ _ Herr Hres).
    unfold dict_get_default at 1.
    destruct (dict_get "content" result) as [[]|]; simpl in Hcontent;
      try contradiction; reflexivity. }
  split; [exact Hnorm|].
  rewrite Hnorm. intros [= Heq]. rewrite <- Heq in Hres. simpl in Hres.
  injection Hres as Hres.
  assert (Hstr : dict_get "content" result = Some (JStr "")).
  { rewrite <- Hres. reflexivity. }
  rewrite Hstr in Hcontent. exact Hcontent.
Qed.

Lemma unusable_content_empty_witness :
  _process_tool_response (JDict sample_odd_response)
  = Ok (JDict [("jsonrpc", JStr "2.0");
               ("id", JInt 9);
               ("result",
                JDict [("isError", JBool true); ("content", JStr "")])]) /\
  _process_tool_response (JDict sample_odd_response)
  <> Ok (JDict sample_odd_response).
Proof.
  exact (unusable_content_empty sample_odd_response sample_odd_result
           eq_refl eq_refl I).
Defined.

(** C10 as stated fails: a response that carries an error member beside a
    result whose content is a number is returned as it is, unchanged. *)
Lemma unusable_content_passed_through :
  dict_get "result" sample_error_odd_response
  = Some (JDict [("content", JInt 5)]) /\
  content_unusable (Some (JInt 5)) /\
  _process_tool_response (JDict sample_error_odd_response)
  = Ok (JDict sample_error_odd_response).
Proof. vm_compute. repeat split. Qed.

(** * Session establishment *)

Lemma session_scan_no_match (lines : list string) (broken : option exn)
    (st : state) :
  Forall (fun line => session_of_line (self st) line = None) lines ->
  session_scan lines broken st
  = (match broken with Some e => Raise e | None => Ok tt end, st).
Proof.
  induction 1 as [|line rest Hline _ IH]; simpl.
  - destruct broken; reflexivity.
  - unfold bind, get_self. rewrite Hline. exact IH.
Qed.

Lemma establish_outcome_without_match
    (net : nat -> outcome) (st : state)
    (status : Z) (body : string) (broken : option exn) :
  net (clock st) = Answered status body broken ->
  Forall (fun line => session_of_line (self st) line = None)
         (iter_lines body) ->
  _establish_session net st
  = (match broken with Some e => Raise e | None => Ok tt end,
     after_request st (sse_request (self st))).
Proof.
  intros Hnet Hlines.
  unfold _establish_session, try_except, bind, get_self, http.
  rewrite Hnet.
  pose proof (session_scan_no_match (iter_lines body) broken
                (after_request st (sse_request (self st))) Hlines) as Hscan.
  unfold after_request, sse_request in *. simpl in Hscan. rewrite Hscan.
  destruct broken; reflexivity.
Qed.

(** C2, amended. When the stream of the session endpoint ends before any
    line of a session-discovery shape, establishment returns normally and
    leaves the client's attributes as they were; when the stream is cut by
    an exception before such a line, that exception is raised. *)
Theorem establish_without_match
    (net : nat -> outcome) (st : state)
    (status : Z) (body : string) (broken : option exn) :
  net (clock st) = Answered status body broken ->
  Forall (fun line => session_of_line (self st) line = None)
         (iter_lines body) ->
  _establish_session net st
  = (match broken with Some e => Raise e | None => Ok tt end,
     after_request st (sse_request (self st))) /\
  self (snd (_establish_session net st)) = self st.
Proof.
  intros Hnet Hlines.
  rewrite (establish_outcome_without_match net st status body broken
             Hnet Hlines).
  split; reflexivity.
Qed.

Lemma establish_without_match_witness :
  _establish_session silent_device (init_state device_url)
  = (Ok tt,
     after_request (init_state device_url)
       (sse_request (init_client device_url))) /\
  self (snd (_establish_session silent_device (init_state device_url)))
  = init_client device_url.
Proof.
  apply (establish_without_match silent_device (init_state device_url)
           200 silent_stream None).
  - reflexivity.
  - vm_compute. repeat constructor.
Defined.

(** C2 as stated fails: on a stream that ends without a discovery line,
    establishment returns normally, nothing is raised, and the session
    state stays unset. *)
Lemma establish_end_of_stream_returns :
  let r := _establish_session silent_device (init_state device_url) in
  fst r = Ok tt /\
  (forall e, fst r <> Raise e) /\
  message_url (self (snd r)) = None /\
  session_id (self (snd r)) = None.
Proof.
  vm_compute. repeat split; intros; discriminate.
Qed.

(** * Correlation ids *)

Lemma session_of_line_request_id (c c' : client) (line : string) :
  session_of_line c line = Some c' -> request_id c' = request_id c.
Proof.
  unfold session_of_line.
  destruct (startswith (strip line) "data: "); [|discriminate].
  destruct (contains _ "session_id=").
  - destruct (re_search_session_id _); [|discriminate]. now intros [= <-].
  - destruct (startswith _ "/message"); [|discriminate]. now intros [= <-].
Qed.

Lemma session_scan_frame (lines : list string) (broken : option exn) :
  forall st,
    let st' := snd (session_scan lines broken st) in
    request_id (self st') = request_id (self st) /\
    sent st' = sent st /\ clock st' = clock st.
Proof.
  induction lines as [|line rest IH]; intros st; simpl.
  - destruct broken; simpl; auto.
  - unfold bind, get_self.
    destruct (session_of_line (self st) line) as [c'|] eqn:Hline.
    + simpl. split; [|auto]. eapply session_of_line_request_id; eauto.
    + apply IH.
Qed.

Lemma establish_frame (net : nat -> outcome) (st : state) :
  let st' := snd (_establish_session net st) in
  request_id (self st') = request_id (self st) /\
  sent st' = (sent st ++ [sse_request (self st)])%list.
Proof.
  unfold _establish_session, try_except, bind, get_self, http.
  destruct (net (clock st)) as [e|status body broken]; simpl; [auto|].
  pose proof (session_scan_frame (iter_lines body) broken
                (after_request st (sse_request (self st)))) as Hscan.
  unfold after_request, sse_request in *. simpl in Hscan.
  destruct (session_scan _ _ _) as [[[]|e] st']; simpl in *; tauto.
Qed.

Lemma request_ids_app (l1 l2 : list http_request) :
  request_ids (l1 ++ l2) = (request_ids l1 ++ request_ids l2)%list.
Proof. apply flat_map_app. Qed.

Lemma establish_ids_ok (net : nat -> outcome) (st : state) :
  ids_ok st -> ids_ok (snd (_establish_session net st)).
Proof.
  intros [Hpos Hids]. destruct (establish_frame net st) as [Hid Hsent].
  unfold ids_ok. rewrite Hid, Hsent, request_ids_app, Hids.
  split; [exact Hpos|]. simpl. now rewrite app_nil_r.
Qed.

Lemma ids_ok_next (st : state) (r : http_request) (tool_name arguments : json) :
  payload r
  = Some (tools_call_request tool_name arguments (request_id (self st) + 1)) ->
  ids_ok st ->
  ids_ok {| self := with_next_id (self st);
            clock := S (clock st);
            sent := (sent st ++ [r])%list |}.
Proof.
  intros Hr [Hpos Hids]. unfold ids_ok. simpl. split; [lia|].
  rewrite request_ids_app, Hids. unfold request_ids at 1. simpl.
  rewrite Hr. simpl.
  replace (Z.to_nat (request_id (self st) + 1))
    with (S (Z.to_nat (request_id (self st)))) by lia.
  rewrite seq_S, map_app. simpl. do 3 f_equal. lia.
Qed.

Lemma via_sse_state (json_loads : string -> attempt json)
    (net : nat -> outcome) (tool_name arguments : json) (st : state) :
  snd (_call_tool_via_sse json_loads net tool_name arguments st)
  = {| self := with_next_id (self st);
       clock := S (clock st);
       sent := (sent st
                ++ [sse_post (self st)
                      (tools_call_request tool_name arguments
                         (request_id (self st) + 1))])%list |}.
Proof.
  unfold _call_tool_via_sse, _get_next_id, try_except, bind, get_self,
    set_self, ret, http, lift. simpl.
  destruct (net (clock st)) as [e|status body broken]; simpl; [reflexivity|].
  destruct (sse_scan _ _ _ _) as [full|e]; simpl; [|reflexivity].
  destruct (truthy full); [|reflexivity].
  destruct (_process_tool_response full); reflexivity.
Qed.

Lemma via_sse_ids_ok (json_loads : string -> attempt json)
    (net : nat -> outcome) (tool_name arguments : json) (st : state) :
  ids_ok st ->
  ids_ok (snd (_call_tool_via_sse json_loads net tool_name arguments st)).
Proof.
  intros Hok. rewrite via_sse_state.
  now apply ids_ok_next with (tool_name := tool_name) (arguments := arguments).
Qed.

Lemma recover_ids_ok (net : nat -> outcome) (e : exn) (st : state) :
  ids_ok st ->
  ids_ok (snd ((if is_timeout e then ret (error_envelope "Request timeout")
                else _establish_session net ;;;
                     ret (error_envelope (message e))) st)).
Proof.
  intros Hok. destruct (is_timeout e); [exact Hok|].
  unfold bind, ret. pose proof (establish_ids_ok net st Hok) as H.
  destruct (_establish_session net st) as [[[]|e'] st']; exact H.
Qed.

Lemma call_tool_send_ids_ok (json_loads : string -> attempt json)
    (net : nat -> outcome) (tool_name arguments : json) (st : state) :
  ids_ok st ->
  ids_ok (snd (call_tool_send json_loads net tool_name arguments st)).
Proof.
  intros Hok.
  pose proof (ids_ok_next st
                (message_post (self st)
                   (tools_call_request tool_name arguments
                      (request_id (self st) + 1)))
                tool_name arguments eq_refl Hok) as H1.
  unfold message_post in H1.
  unfold call_tool_send, _get_next_id, try_except, bind, get_self, set_self,
    http, lift.
  cbn [ret fst snd self clock sent request_id message_url server_url].
  set (st1 := {| self := _; clock := S (clock st); sent := _ |}) in *.
  destruct (net (clock st)) as [e|status body broken].
  - apply recover_ids_ok, H1.
  - destruct (status =? 200).
    + destruct broken as [e|]; [apply recover_ids_ok, H1|].
      destruct (startswith body "data: ").
      * destruct (post_body_scan json_loads (split_lines body)) as [v|e];
          [exact H1 | apply recover_ids_ok, H1].
      * assert (Hsse : ids_ok
                         (snd (match _call_tool_via_sse json_loads net
                                       tool_name arguments st1 with
                               | (Ok a, st') => (Ok a, st')
                               | (Raise e, st') =>
                                   (if is_timeout e
                                    then ret (error_envelope "Request timeout")
                                    else _establish_session net ;;;
                                         ret (error_envelope (message e)))
                                     st'
                               end))).
        { pose proof (via_sse_ids_ok json_loads net tool_name arguments
                        st1 H1) as H2.
          destruct (_call_tool_via_sse _ _ _ _ st1) as [[v|e] st2];
            [exact H2 | apply recover_ids_ok, H2]. }
        destruct (json_loads body) as [res|e].
        -- destruct (_process_tool_response res) as [v|e];
             [exact H1|].
           destruct (is_decode_error e);
             [exact Hsse | apply recover_ids_ok, H1].
        -- destruct (is_decode_error e);
             [exact Hsse | apply recover_ids_ok, H1].
    + exact H1.
Qed.

Lemma call_tool_ids_ok (json_loads : string -> attempt json)
    (net : nat -> outcome) (tool_name arguments : json) (st : state) :
  ids_ok st ->
  ids_ok (snd (call_tool json_loads net tool_name arguments st)).
Proof.
  intros Hok. unfold call_tool, bind, get_self.
  destruct (url_unset (message_url (self st)));
    [|now apply call_tool_send_ids_ok].
  pose proof (establish_ids_ok net st Hok) as H.
  destruct (_establish_session net st) as [[[]|e] st']; [|exact H].
  simpl in H. destruct (url_unset (message_url (self st')));
    [exact H | now apply call_tool_send_ids_ok].
Qed.

Lemma run_ids_ok (json_loads : string -> attempt json) (net : nat -> outcome)
    (ops : list operation) :
  forall st, ids_ok st -> ids_ok (run json_loads net ops st).
Proof.
  induction ops as [|op ops IH]; intros st Hok; [exact Hok|].
  simpl. apply IH. destruct op; simpl.
  - now apply establish_ids_ok.
  - now apply call_tool_ids_ok.
  - now apply via_sse_ids_ok.
Qed.

Lemma init_ids_ok (url : string) : ids_ok (init_state url).
Proof. split; [simpl; lia | reflexivity]. Qed.

Lemma count_up_sorted (n : nat) :
  forall s, StronglySorted Z.lt (map Z.of_nat (seq s n)).
Proof.
  induction n as [|n IH]; intros s; simpl; constructor; [apply IH|].
  apply Forall_forall. intros x Hx. apply in_map_iff in Hx.
  destruct Hx as [k [<- Hk]]. apply in_seq in Hk. lia.
Qed.

Lemma count_up_nodup (n : nat) : forall s, NoDup (map Z.of_nat (seq s n)).
Proof.
  induction n as [|n IH]; intros s; simpl; constructor; [|apply IH].
  intros Hin. apply in_map_iff in Hin. destruct Hin as [k [Hk Hin]].
  apply in_seq in Hin. lia.
Qed.

(** C6. In every run of a client from its creation, under every behaviour
    of the device, the correlation ids of the requests sent are
    1, 2, ..., n in the order of sending: they start at 1, increase
    strictly, and none occurs twice. *)
Theorem correlation_ids_increase
    (json_loads : string -> attempt json) (net : nat -> outcome)
    (url : string) (ops : list operation) :
  let ids := request_ids (sent (run json_loads net ops (init_state url))) in
  ids = map Z.of_nat (seq 1 (length ids)) /\
  StronglySorted Z.lt ids /\
  NoDup ids.
Proof.
  destruct (run_ids_ok json_loads net ops _ (init_ids_ok url)) as [_ Hids].
  cbv zeta. rewrite Hids at 1 3 4.
  rewrite Hids at 1. rewrite length_map, length_seq.
  repeat split; [apply count_up_sorted | apply count_up_nodup].
Qed.

(** * Calls over POST *)

Lemma post_body_scan_no_payload (json_loads : string -> attempt json)
    (lines : list string) :
  forallb (no_payload json_loads) lines = true ->
  post_body_scan json_loads lines = Ok JNull.
Proof.
  induction lines as [|line rest IH]; cbn [post_body_scan forallb];
    [reflexivity|].
  intros H. apply andb_prop in H. destruct H as [Hline Hrest].
  unfold no_payload in Hline.
  destruct (startswith line "data: "
            && negb (String.eqb (strip (drop 6 line)) "[DONE]"));
    [|now apply IH].
  destruct (json_loads (drop 6 line)) as [r|e]; [discriminate|].
  rewrite Hline. now apply IH.
Qed.

Lemma call_tool_connected (json_loads : string -> attempt json)
    (net : nat -> outcome) (tool_name arguments : json) (st : state) :
  url_unset (message_url (self st)) = false ->
  call_tool json_loads net tool_name arguments st
  = call_tool_send json_loads net tool_name arguments st.
Proof.
  intros Hset. unfold call_tool, bind, get_self. now rewrite Hset.
Qed.

(** A call on a client without a session, when the session stream ends
    without announcing one: [call_tool] notices that the endpoint is still
    missing and reports it. *)
Lemma call_tool_reports_missing_session (json_loads : string -> attempt json)
    (net : nat -> outcome) (tool_name arguments : json) (st : state)
    (status : Z) (body : string) :
  url_unset (message_url (self st)) = true ->
  net (clock st) = Answered status body None ->
  Forall (fun line => session_of_line (self st) line = None)
         (iter_lines body) ->
  fst (call_tool json_loads net tool_name arguments st)
  = Ok (error_envelope "Failed to establish session").
Proof.
  intros Hunset Hnet Hlines. unfold call_tool, bind, get_self.
  rewrite Hunset.
  rewrite (establish_outcome_without_match net st status body None
             Hnet Hlines).
  cbn [after_request self]. now rewrite Hunset.
Qed.

(** Whenever the POST is answered 200 with a data-prefixed body in which
    every data line is the sentinel or is rejected by the decoder with
    [json.JSONDecodeError], [call_tool] returns [None]. *)
Lemma call_tool_falls_through (json_loads : string -> attempt json)
    (net : nat -> outcome) (tool_name arguments : json) (st : state)
    (body : string) :
  url_unset (message_url (self st)) = false ->
  net (clock st) = Answered 200 body None ->
  startswith body "data: " = true ->
  forallb (no_payload json_loads) (split_lines body) = true ->
  fst (call_tool json_loads net tool_name arguments st) = Ok JNull.
Proof.
  intros Hset Hnet Hdata Hlines. rewrite call_tool_connected by exact Hset.
  unfold call_tool_send, _get_next_id, try_except, bind, get_self, set_self,
    http, lift.
  cbn [ret fst snd self clock sent]. rewrite Hnet. simpl.
  rewrite Hdata, (post_body_scan_no_payload json_loads _ Hlines).
  reflexivity.
Qed.

(** C1, the code at the failing input: the POST is answered 200 with the
    body "data: processing", "data: [DONE]"; [call_tool] returns [None], which
    is not an error envelope. *)
Theorem done_only_body_returns_none :
  fst (call_tool Decoder.loads done_only_device tool tool_arguments connected)
  = Ok JNull /\
  forall msg,
    fst (call_tool Decoder.loads done_only_device tool tool_arguments
           connected)
    <> Ok (error_envelope msg).
Proof. vm_compute. split; [reflexivity | discriminate]. Qed.

(** C3, the code at the failing inputs: with no session yet and a device
    that refuses the connection, the exception of the inline establishment
    leaves [call_tool]; with a session, the exception of the POST is caught
    and the exception of the re-establishment in the handler leaves
    [call_tool] instead of the envelope. *)
Theorem unreachable_device_raises :
  fst (call_tool Decoder.loads unreachable_device tool tool_arguments
         (init_state device_url))
  = Raise connection_error /\
  fst (call_tool Decoder.loads unreachable_device tool tool_arguments
         connected)
  = Raise connection_error.
Proof. vm_compute. split; reflexivity. Qed.

(** * The stream fallback *)

Section Fallback.

Variable json_loads : string -> attempt json.

Lemma sse_scan_skipped (id : Z) (broken : option exn) (line : string)
    (rest : list string) :
  skipped json_loads id line = true ->
  sse_scan json_loads id (line :: rest) broken
  = sse_scan json_loads id rest broken.
Proof.
  unfold skipped, sentinel, answer, decoder_failure, data_payload.
  cbn [sse_scan].
  destruct (startswith (strip line) "data: "); [|reflexivity].
  destruct (String.eqb (drop 6 (strip line)) "[DONE]"); [discriminate|].
  destruct (json_loads (drop 6 (strip line))) as [[]|e]; try reflexivity.
  - destruct (eq_int _ id); [discriminate|reflexivity].
  - destruct (is_decode_error e); [|discriminate].
    destruct (isdigit _); reflexivity.
Qed.

Lemma sse_scan_prefix (id : Z) (broken : option exn) (pre rest : list string) :
  forallb (skipped json_loads id) pre = true ->
  sse_scan json_loads id (pre ++ rest) broken
  = sse_scan json_loads id rest broken.
Proof.
  induction pre as [|line pre IH]; [reflexivity|].
  cbn [forallb app]. intros H. apply andb_prop in H. destruct H as [Hl Hp].
  rewrite sse_scan_skipped by exact Hl. now apply IH.
Qed.

Lemma sse_scan_answer (id : Z) (broken : option exn) (line : string)
    (rest : list string) (fields : list (string * json)) :
  answer json_loads id line = Some fields ->
  sse_scan json_loads id (line :: rest) broken = Ok (JDict fields) /\
  truthy (JDict fields) = true.
Proof.
  unfold answer, data_payload. cbn [sse_scan].
  destruct (startswith (strip line) "data: "); [|discriminate].
  destruct (String.eqb (drop 6 (strip line)) "[DONE]"); [discriminate|].
  destruct (json_loads (drop 6 (strip line))) as [[]|]; try discriminate.
  destruct (eq_int _ id) eqn:Hid; [|discriminate].
  intros [= <-]. split; [reflexivity|].
  destruct fields0; [discriminate Hid | reflexivity].
Qed.

Lemma sse_scan_sentinel (id : Z) (broken : option exn) (line : string)
    (rest : list string) :
  sentinel line = true ->
  sse_scan json_loads id (line :: rest) broken = Ok (JDict []).
Proof.
  unfold sentinel, data_payload. cbn [sse_scan].
  destruct (startswith (strip line) "data: "); [|discriminate].
  now intros ->.
Qed.

Lemma sse_scan_decoder_failure (id : Z) (broken : option exn) (line : string)
    (rest : list string) (e : exn) :
  decoder_failure json_loads line = Some e ->
  sse_scan json_loads id (line :: rest) broken = Raise e.
Proof.
  unfold decoder_failure, data_payload. cbn [sse_scan].
  destruct (startswith (strip line) "data: "); [|discriminate].
  destruct (String.eqb (drop 6 (strip line)) "[DONE]"); [discriminate|].
  destruct (json_loads (drop 6 (strip line))) as [r|e']; [discriminate|].
  destruct (is_decode_error e'); [discriminate|]. now intros [= ->].
Qed.

Variable net : nat -> outcome.

(** The value of the fallback call in terms of its scan. *)
Lemma via_sse_value (tool_name arguments : json) (st : state)
    (status : Z) (body : string) (broken : option exn) :
  net (clock st) = Answered status body broken ->
  fst (_call_tool_via_sse json_loads net tool_name arguments st)
  = Ok match sse_scan json_loads (request_id (self st) + 1)
               (iter_lines body) broken with
       | Ok full_response =>
           if truthy full_response
           then resolved (_process_tool_response full_response)
           else error_envelope "No response received"
       | Raise e => error_envelope (message e)
       end.
Proof.
  intros Hnet.
  unfold _call_tool_via_sse, _get_next_id, try_except, bind, get_self,
    set_self, http, lift.
  cbn [ret fst snd self clock sent request_id]. rewrite Hnet.
  destruct (sse_scan _ _ _ _) as [full|e]; [|reflexivity].
  destruct (truthy full); [|reflexivity].
  destruct (_process_tool_response full); reflexivity.
Qed.

Lemma via_sse_returns (tool_name arguments : json) (st : state) :
  exists v,
    fst (_call_tool_via_sse json_loads net tool_name arguments st) = Ok v.
Proof.
  unfold _call_tool_via_sse, _get_next_id, try_except, bind, get_self,
    set_self, http, lift.
  cbn [ret fst snd self clock sent request_id].
  destruct (net (clock st)) as [e|status body broken]; [now eexists|].
  destruct (sse_scan _ _ _ _) as [full|e]; [|now eexists].
  destruct (truthy full); [|now eexists].
  destruct (_process_tool_response full); now eexists.
Qed.

(** C4, amended. In the stream-fallback scan for the request with
    correlation id [id]: a data line whose payload is a bare number, or is
    rejected by the decoder with JSONDecodeError, and is not the sentinel,
    is skipped; the call resolves with the first line that answers [id]
    when only skipped lines precede it; when the stream ends, or the
    sentinel is reached, after skipped lines only, the call yields the
    error envelope "No response received"; and when, after skipped lines
    only, the decoder fails on a payload with an exception that is not a
    JSONDecodeError, the scan is aborted and the call yields the error
    envelope with the message of that exception. *)
Theorem stream_fallback_scan (tool_name arguments : json) (st : state)
    (status : Z) (body : string) (broken : option exn) :
  net (clock st) = Answered status body broken ->
  let id := request_id (self st) + 1 in
  let call := fst (_call_tool_via_sse json_loads net tool_name arguments st) in
  (forall line d,
      data_payload line = Some d -> d <> "[DONE]" ->
      (exists e, json_loads d = Raise e /\ is_decode_error e = true)
      \/ (exists n, json_loads d = Ok (JInt n)) ->
      skipped json_loads id line = true /\
      forall rest,
        sse_scan json_loads id (line :: rest) broken
        = sse_scan json_loads id rest broken) /\
  (forall pre line rest fields,
      iter_lines body = (pre ++ line :: rest)%list ->
      forallb (skipped json_loads id) pre = true ->
      answer json_loads id line = Some fields ->
      call = Ok (resolved (_process_tool_response (JDict fields)))) /\
  (forallb (skipped json_loads id) (iter_lines body) = true ->
   broken = None ->
   call = Ok (error_envelope "No response received")) /\
  (forall pre line rest,
      iter_lines body = (pre ++ line :: rest)%list ->
      forallb (skipped json_loads id) pre = true ->
      sentinel line = true ->
      call = Ok (error_envelope "No response received")) /\
  (forall pre line rest e,
      iter_lines body = (pre ++ line :: rest)%list ->
      forallb (skipped json_loads id) pre = true ->
      decoder_failure json_loads line = Some e ->
      call = Ok (error_envelope (message e))).
Proof.
intros Hnet id call. subst call.
rewrite (via_sse_value tool_name arguments st status body broken Hnet).
fold id.
assert (Hnoise : forall line d,
           data_payload line = Some d -> d <> "[DONE]" ->
           (exists e, json_loads d = Raise e /\ is_decode_error e = true)
           \/ (exists n, json_loads d = Ok (JInt n)) ->
           skipped json_loads id line = true).
{ intros line d Hd Hnot Hbad.
  unfold skipped, sentinel, answer, decoder_failure. rewrite Hd.
  apply String.eqb_neq in Hnot. rewrite Hnot.
  destruct Hbad as [[e [-> He]] | [n ->]]; [now rewrite He | reflexivity]. }
split; [|split; [|split; [|split]]].
- intros line d Hd Hnot Hbad. split; [now apply (Hnoise line d)|].
  intros rest. apply sse_scan_skipped. now apply (Hnoise line d).
- intros pre line rest fields Hbody Hpre Hans. rewrite Hbody.
  rewrite sse_scan_prefix by exact Hpre.
  destruct (sse_scan_answer id broken line rest fields Hans) as [-> ->].
  reflexivity.
- intros Hall ->.
  rewrite <- (app_nil_r (iter_lines body)).
  rewrite sse_scan_prefix by exact Hall. reflexivity.
- intros pre line rest Hbody Hpre Hsent. rewrite Hbody.
  rewrite sse_scan_prefix by exact Hpre.
  now rewrite sse_scan_sentinel by exact Hsent.
- intros pre line rest e Hbody Hpre Hfail. rewrite Hbody.
  rewrite sse_scan_prefix by exact Hpre.
  now rewrite (sse_scan_decoder_failure id broken line rest e Hfail).
Qed.

End Fallback.

Lemma stream_fallback_scan_witness :
  fst (_call_tool_via_sse Decoder.loads noisy_device tool tool_arguments
         connected)
  = Ok (normalized_envelope (JInt 1) (JBool false) "ready").
Proof.
  destruct (stream_fallback_scan Decoder.loads noisy_device tool
              tool_arguments connected 200 noisy_stream None eq_refl)
    as [_ [Hfirst _]].
  exact (Hfirst noisy_lines answer_line [] answer_fields
           eq_refl eq_refl eq_refl).
Defined.

(** C4 as stated fails: the second line of the stream is a data line that
    decodes to an object whose id is the request's, and the sentinel before
    it, an undecodable data line, ends the scan: the call reports that no
    response was received. *)
Lemma sentinel_before_answer_ends_scan :
  iter_lines sentinel_first_stream = ["data: [DONE]" ++ nl; answer_line] /\
  Decoder.loads "[DONE]" = Raise Decoder.syntax_error /\
  answer Decoder.loads 1 answer_line = Some answer_fields /\
  fst (_call_tool_via_sse Decoder.loads sentinel_first_device tool
         tool_arguments connected)
  = Ok (error_envelope "No response received") /\
  fst (_call_tool_via_sse Decoder.loads sentinel_first_device tool
         tool_arguments connected)
  <> Ok (resolved (_process_tool_response (JDict answer_fields))).
Proof. vm_compute. repeat split; discriminate. Qed.

(** On the worked decoder: a numeral of 4301 digits between a bare number
    and the answer aborts the scan, and the call yields the envelope with
    the decoder's message. *)
Lemma overlong_numeral_aborts_scan :
  exists e,
    Decoder.loads long_numeral = Raise e /\
    is_decode_error e = false /\
    fst (_call_tool_via_sse Decoder.loads overlong_device tool tool_arguments
           connected)
    = Ok (error_envelope (message e)).
Proof.
  exists (Decoder.int_limit_error 4301). vm_compute. repeat split.
Qed.

(** C5, amended. When the POST is answered 200 with a body that is not
    data-prefixed and that the decoder rejects with JSONDecodeError, the
    call posts a second request to the stream endpoint with the same
    method and params and with a correlation id newly taken from the
    counter, greater than the id of the request first posted. *)
Theorem fallback_request_fresh_id (json_loads : string -> attempt json)
    (net : nat -> outcome) (tool_name arguments : json) (st : state)
    (body : string) (e : exn) :
  url_unset (message_url (self st)) = false ->
  net (clock st) = Answered 200 body None ->
  startswith body "data: " = false ->
  json_loads body = Raise e ->
  is_decode_error e = true ->
  exists fresh,
    sent (snd (call_tool json_loads net tool_name arguments st))
    = (sent st
       ++ [message_post (self st)
             (tools_call_request tool_name arguments
                (request_id (self st) + 1));
           sse_post (self st)
             (tools_call_request tool_name arguments fresh)])%list /\
    fresh = request_id (self (snd (call_tool json_loads net tool_name
                                     arguments st))) /\
    request_id (self st) + 1 < fresh.
Proof.
  intros Hset Hnet Hdata Hjson Hdecode.
  rewrite call_tool_connected by exact Hset.
  unfold call_tool_send, _get_next_id, try_except, bind, get_self, set_self,
    http, lift.
  cbn [ret fst snd self clock sent request_id message_url server_url].
  rewrite Hnet. cbn [Z.eqb Pos.eqb]. rewrite Hdata, Hjson, Hdecode.
  set (st1 := {| self := _; clock := S (clock st); sent := _ |}).
  pose proof (via_sse_state json_loads net tool_name arguments st1) as Hst.
  destruct (via_sse_returns json_loads net tool_name arguments st1) as [v Hv].
  destruct (_call_tool_via_sse json_loads net tool_name arguments st1)
    as [[v'|e'] st2]; [|discriminate Hv].
  cbn [snd] in *. rewrite Hst. subst st1. cbn [sent self request_id].
  exists (request_id (self st) + 1 + 1).
  split; [|split; [reflexivity | lia]].
  rewrite <- app_assoc. reflexivity.
Qed.

Lemma fallback_request_fresh_id_witness :
  exists fresh,
    sent (snd (call_tool Decoder.loads undecodable_device tool tool_arguments
                 connected))
    = [message_post (self connected)
         (tools_call_request tool tool_arguments 1);
       sse_post (self connected)
         (tools_call_request tool tool_arguments fresh)] /\
    fresh = request_id (self (snd (call_tool Decoder.loads undecodable_device
                                     tool tool_arguments connected))) /\
    1 < fresh.
Proof.
  exact (fallback_request_fresh_id Decoder.loads undecodable_device tool
           tool_arguments connected "accepted" Decoder.syntax_error
           eq_refl eq_refl eq_refl eq_refl eq_refl).
Defined.

(** C5 as stated fails: the request posted on the fallback path carries
    correlation id 2, the request first posted carries 1. *)
Lemma fallback_request_id_differs :
  map payload
      (sent (snd (call_tool Decoder.loads undecodable_device tool
                    tool_arguments connected)))
  = [Some (tools_call_request tool tool_arguments 1);
     Some (tools_call_request tool tool_arguments 2)] /\
  py_getitem (tools_call_request tool tool_arguments 1) "id"
  <> py_getitem (tools_call_request tool tool_arguments 2) "id".
Proof. vm_compute. split; [reflexivity | discriminate]. Qed.

(** * The bridge server *)

(** C9, amended. A POST /call request whose body decodes to an object
    with no tool name is answered with status 400 and the body
    {"error": "Missing 'tool' parameter"}; the device is not contacted. *)
Theorem missing_tool_rejected (json_loads : string -> attempt json)
    (net : nat -> outcome) (st : state) (body : string)
    (fields : list (string * json)) :
  json_loads body = Ok (JDict fields) ->
  truthy (dict_get_default "tool" JNull fields) = false ->
  handle_tool_call json_loads net body st
  = (Ok (json_response
           (JDict [("error", JStr "Missing 'tool' parameter")]) 400),
     st).
Proof.
  intros Hbody Htool.
  unfold handle_tool_call, try_except, bind, lift, py_get.
  rewrite Hbody, Htool. reflexivity.
Qed.

Lemma missing_tool_rejected_witness :
  handle_tool_call Decoder.loads unreachable_device "{}" connected
  = (Ok (json_response
           (JDict [("error", JStr "Missing 'tool' parameter")]) 400),
     connected).
Proof.
  exact (missing_tool_rejected Decoder.loads unreachable_device connected
           "{}" [] eq_refl eq_refl).
Defined.

(** C9 as stated fails: the body of the 400 answer to {} is not
    {"error": "Missing tool parameter"}. *)
Lemma missing_tool_body_differs :
  exists response,
    fst (handle_tool_call Decoder.loads unreachable_device "{}" connected)
    = Ok response /\
    status_code response = 400 /\
    web_content response
    <> JsonBody (JDict [("error", JStr "Missing tool parameter")]).
Proof.
  eexists. vm_compute. repeat split. discriminate.
Qed.

(** * Further properties: session discovery *)

Lemma prefix_refl (s : string) : String.prefix s s = true.
Proof.
  induction s as [|c s IH]; simpl; [reflexivity|].
  destruct (ascii_dec c c); [exact IH | congruence].
Qed.

Lemma prefix_app (a b s : string) :
  String.prefix a s = true ->
  String.prefix b (drop (String.length a) s) = true ->
  String.prefix (a ++ b) s = true.
Proof.
  revert s. induction a as [|c a IH]; intros s Ha Hb; [exact Hb|].
  destruct s as [|c' s]; simpl in *; [discriminate Ha|].
  destruct (ascii_dec c c'); [|discriminate Ha]. now apply IH.
Qed.

Lemma token_prefix_is_prefix (s : string) :
  String.prefix (token_prefix s) s = true.
Proof.
  induction s as [|c s IH]; simpl; [reflexivity|].
  destruct (is_token_char c); simpl; [|reflexivity].
  destruct (ascii_dec c c); [exact IH | congruence].
Qed.

Lemma token_prefix_chars (s : string) :
  all_token_chars (token_prefix s) = true.
Proof.
  induction s as [|c s IH]; simpl; [reflexivity|].
  destruct (is_token_char c) eqn:Hc; simpl; [|reflexivity].
  now rewrite Hc.
Qed.

Lemma contains_tail (s p : string) (c : ascii) :
  contains s p = true -> contains (String c s) p = true.
Proof.
  intros H. cbn [contains]. rewrite H. apply orb_true_r.
Qed.

Lemma contains_startswith (s p : string) :
  startswith s p = true -> contains s p = true.
Proof.
  intros H. destruct s; cbn [contains]; rewrite H; reflexivity.
Qed.

Lemma match_here_spec (s tok : string) :
  match_here s = Some tok ->
  tok <> "" /\
  all_token_chars tok = true /\
  startswith s ("session_id=" ++ tok) = true.
Proof.
  unfold match_here, startswith.
  destruct (String.prefix "session_id=" s) eqn:Hp; [|discriminate].
  destruct (token_prefix (drop 11 s)) as [|c t] eqn:Ht; [discriminate|].
  intros [= <-]. split; [discriminate|]. split.
  - rewrite <- Ht. apply token_prefix_chars.
  - apply prefix_app; [exact Hp|]. rewrite <- Ht.
    apply token_prefix_is_prefix.
Qed.

Lemma re_search_spec (s tok : string) :
  re_search_session_id s = Some tok ->
  tok <> "" /\
  all_token_chars tok = true /\
  contains s ("session_id=" ++ tok) = true.
Proof.
  induction s as [|c s IH]; cbn [re_search_session_id].
  - destruct (match_here "") eqn:Hm; [|discriminate].
    intros [= <-]. destruct (match_here_spec _ _ Hm) as [H1 [H2 H3]].
    split; [exact H1 | split; [exact H2 | now apply contains_startswith]].
  - destruct (match_here (String c s)) eqn:Hm.
    + intros [= <-]. destruct (match_here_spec _ _ Hm) as [H1 [H2 H3]].
      split; [exact H1 | split; [exact H2 | now apply contains_startswith]].
    + intros H. destruct (IH H) as [H1 [H2 H3]].
      split; [exact H1 | split; [exact H2 | now apply contains_tail]].
Qed.

Lemma session_of_line_spec (c c' : client) (line : string) :
  session_of_line c line = Some c' ->
  exists payload,
    data_payload line = Some payload /\
    message_url c' = Some (server_url c ++ payload) /\
    server_url c' = server_url c /\
    request_id c' = request_id c /\
    ((exists tok,
         session_id c' = Some tok /\
         tok <> "" /\
         all_token_chars tok = true /\
         contains payload ("session_id=" ++ tok) = true)
     \/ (contains payload "session_id=" = false /\
         startswith payload "/message" = true /\
         session_id c' = session_id c)).
Proof.
  unfold session_of_line, data_payload.
  destruct (startswith (strip line) "data: "); [|discriminate].
  intros H. exists (drop 6 (strip line)). split; [reflexivity|].
  destruct (contains (drop 6 (strip line)) "session_id=") eqn:Hc.
  - destruct (re_search_session_id _) as [tok|] eqn:Hre; [|discriminate].
    injection H as <-. cbn. repeat split. left. exists tok.
    destruct (re_search_spec _ _ Hre) as [H1 [H2 H3]]. auto.
  - destruct (startswith _ "/message") eqn:Hm; [|discriminate].
    injection H as <-. cbn. repeat split. right. auto.
Qed.

(** X1. A stream line that announces a session gives the client its
    message endpoint, the base URL followed by the line's payload; when the
    payload holds "session_id=", the session id is a token that follows it
    in the payload, not empty and made of the characters a-f, 0-9 and "-";
    otherwise the payload starts with "/message" and the session id is
    kept.  The base URL and the id counter are never touched. *)
Theorem session_line_decoded (c c' : client) (line : string) :
  session_of_line c line = Some c' ->
  exists payload,
    data_payload line = Some payload /\
    message_url c' = Some (server_url c ++ payload) /\
    server_url c' = server_url c /\
    request_id c' = request_id c /\
    ((exists tok,
         session_id c' = Some tok /\
         tok <> "" /\
         all_token_chars tok = true /\
         contains payload ("session_id=" ++ tok) = true)
     \/ (contains payload "session_id=" = false /\
         startswith payload "/message" = true /\
         session_id c' = session_id c)).
Proof. exact (session_of_line_spec c c' line). Qed.

Lemma session_line_decoded_witness :
  exists payload,
    data_payload token_line = Some payload /\
    message_url (self connected) = Some (device_url ++ payload) /\
    server_url (self connected) = device_url /\
    request_id (self connected) = 0 /\
    ((exists tok,
         session_id (self connected) = Some tok /\
         tok <> "" /\
         all_token_chars tok = true /\
         contains payload ("session_id=" ++ tok) = true)
     \/ (contains payload "session_id=" = false /\
         startswith payload "/message" = true /\
         session_id (self connected) = None)).
Proof.
  exact (session_line_decoded (init_client device_url) (self connected)
           token_line eq_refl).
Defined.

Lemma session_scan_first_match (pre : list string) (line : string)
    (rest : list string) (broken : option exn) (st : state) (c' : client) :
  forallb (no_session (self st)) pre = true ->
  session_of_line (self st) line = Some c' ->
  session_scan (pre ++ line :: rest) broken st
  = (Ok tt, {| self := c'; clock := clock st; sent := sent st |}).
Proof.
  intros Hpre Hline. induction pre as [|l pre IH]; cbn [app session_scan].
  - unfold bind, get_self. rewrite Hline. reflexivity.
  - cbn [forallb] in Hpre. apply andb_prop in Hpre. destruct Hpre as [Hl Hp].
    unfold bind, get_self. unfold no_session in Hl.
    destruct (session_of_line (self st) l); [discriminate|]. now apply IH.
Qed.

Lemma establish_first_match
    (net : nat -> outcome) (st : state) (status : Z) (body : string)
    (broken : option exn) (pre : list string) (line : string)
    (rest : list string) (c' : client) :
  net (clock st) = Answered status body broken ->
  iter_lines body = (pre ++ line :: rest)%list ->
  forallb (no_session (self st)) pre = true ->
  session_of_line (self st) line = Some c' ->
  _establish_session net st
  = (Ok tt,
     {| self := c';
        clock := S (clock st);
        sent := (sent st ++ [sse_request (self st)])%list |}).
Proof.
  intros Hnet Hbody Hpre Hline.
  unfold _establish_session, try_except, bind, get_self, http.
  rewrite Hnet, Hbody.
  pose proof (session_scan_first_match pre line rest broken
                (after_request st (sse_request (self st))) c' Hpre Hline)
    as Hscan.
  unfold after_request, sse_request in *. cbn in Hscan. rewrite Hscan.
  reflexivity.
Qed.

(** X2. Establishment is decided by the first stream line that
    announces a session: the lines after it are not read, so neither what
    they say nor an exception that ends the stream after it has any
    effect; establishment returns normally with the attributes that line
    gives, after one GET of the session endpoint. *)
Theorem first_session_line_decides
    (net : nat -> outcome) (st : state) (status : Z) (body : string)
    (broken : option exn) (pre : list string) (line : string)
    (rest : list string) (c' : client) :
  net (clock st) = Answered status body broken ->
  iter_lines body = (pre ++ line :: rest)%list ->
  forallb (no_session (self st)) pre = true ->
  session_of_line (self st) line = Some c' ->
  _establish_session net st
  = (Ok tt,
     {| self := c';
        clock := S (clock st);
        sent := (sent st ++ [sse_request (self st)])%list |}).
Proof.
  exact (establish_first_match net st status body broken pre line rest c').
Qed.

Lemma first_session_line_decides_witness :
  _establish_session token_device (init_state device_url)
  = (Ok tt,
     {| self := self connected;
        clock := 1;
        sent := [sse_request (init_client device_url)] |}).
Proof.
  exact (first_session_line_decides token_device (init_state device_url)
           200 token_stream (Some connection_error)
           ["event: endpoint" ++ nl] token_line ["data: later" ++ nl]
           (self connected) eq_refl eq_refl eq_refl eq_refl).
Defined.

Lemma app_not_empty (a b : string) :
  b <> "" -> String.eqb (a ++ b) "" = false.
Proof.
  intros Hb. destruct a as [|c a]; [|reflexivity].
  simpl. destruct b; [contradiction|reflexivity].
Qed.

Lemma session_payload_not_empty (c c' : client) (line : string) :
  session_of_line c line = Some c' ->
  url_unset (message_url c') = false.
Proof.
  intros H. destruct (session_of_line_spec c c' line H)
    as [payload [_ [Hurl [_ [_ Hshape]]]]].
  rewrite Hurl. cbn [url_unset]. apply app_not_empty.
  destruct Hshape as [[tok [_ [Htok [_ Hin]]]] | [_ [Hpath _]]];
    intros ->; [|discriminate Hpath].
  cbn in Hin. discriminate Hin.
Qed.

(** X3. A session stream whose first announcing line is a bare message
    path (no "session_id=" in it) gives the client a usable message
    endpoint and leaves its session id as it was: the health handler, which
    looks at the session id only, goes on reporting what it reported
    before, and reports no session for a client that had none. *)
Theorem path_session_not_reported
    (net : nat -> outcome) (st : state) (status : Z) (body : string)
    (broken : option exn) (pre : list string) (line : string)
    (rest : list string) (payload : string) :
  net (clock st) = Answered status body broken ->
  iter_lines body = (pre ++ line :: rest)%list ->
  forallb (no_session (self st)) pre = true ->
  data_payload line = Some payload ->
  contains payload "session_id=" = false ->
  startswith payload "/message" = true ->
  let st' := snd (_establish_session net st) in
  message_url (self st') = Some (server_url (self st) ++ payload) /\
  url_unset (message_url (self st')) = false /\
  session_id (self st') = session_id (self st) /\
  fst (handle_health st')
  = Ok (json_response
          (JDict [("status", JStr "healthy");
                  ("mcp_server", JStr (server_url (self st)));
                  ("session_established",
                   JBool (session_established (self st)))])
          200).
Proof.
  intros Hnet Hbody Hpre Hpayload Hno Hpath st'.
  assert (Hline : session_of_line (self st) line
                  = Some {| server_url := server_url (self st);
                            request_id := request_id (self st);
                            session_id := session_id (self st);
                            message_url :=
                              Some (server_url (self st) ++ payload) |}).
  { unfold data_payload in Hpayload. unfold session_of_line.
    destruct (startswith (strip line) "data: "); [|discriminate].
    assert (Hp : payload = drop 6 (strip line)) by congruence.
    subst payload. now rewrite Hno, Hpath. }
  subst st'.
  rewrite (establish_first_match net st status body broken pre line rest _
             Hnet Hbody Hpre Hline).
  cbn. repeat split.
  apply app_not_empty. intros ->. discriminate Hpath.
Qed.

Lemma path_session_not_reported_witness :
  let st' := snd (_establish_session path_device (init_state device_url)) in
  message_url (self st') = Some (device_url ++ "/message") /\
  url_unset (message_url (self st')) = false /\
  session_id (self st') = None /\
  fst (handle_health st')
  = Ok (json_response
          (JDict [("status", JStr "healthy");
                  ("mcp_server", JStr device_url);
                  ("session_established", JBool false)])
          200).
Proof.
  exact (path_session_not_reported path_device (init_state device_url)
           200 path_stream None [": hello" ++ nl] ("data: /message" ++ nl)
           [] "/message" eq_refl eq_refl eq_refl eq_refl eq_refl eq_refl).
Defined.

(** * Further properties: what a client never loses *)

Lemma extends_refl (c : client) : extends c c.
Proof. unfold extends. repeat split; auto. lia. Qed.

Lemma extends_trans (a b c : client) :
  extends a b -> extends b c -> extends a c.
Proof.
  unfold extends. intros [H1 [H2 [H3 H4]]] [K1 [K2 [K3 K4]]].
  repeat split; auto; [congruence | lia].
Qed.

Lemma extends_next_id (c : client) : extends c (with_next_id c).
Proof. unfold extends. cbn. repeat split; auto. lia. Qed.

Lemma session_of_line_extends (c c' : client) (line : string) :
  session_of_line c line = Some c' -> extends c c'.
Proof.
  intros H. pose proof (session_payload_not_empty c c' line H) as Hurl.
  destruct (session_of_line_spec c c' line H)
    as [payload [_ [_ [Hsrv [Hid Hshape]]]]].
  unfold extends. repeat split; auto; [|lia].
  unfold session_established.
  destruct Hshape as [[tok [-> _]] | [_ [_ ->]]]; auto.
Qed.

Lemma session_scan_extends (lines : list string) (broken : option exn) :
  forall st, extends (self st) (self (snd (session_scan lines broken st))).
Proof.
  induction lines as [|line rest IH]; intros st; cbn [session_scan].
  - destruct broken; apply extends_refl.
  - unfold bind, get_self.
    destruct (session_of_line (self st) line) as [c'|] eqn:Hline.
    + cbn. now apply session_of_line_extends with (line := line).
    + apply IH.
Qed.

Lemma establish_extends (net : nat -> outcome) (st : state) :
  extends (self st) (self (snd (_establish_session net st))).
Proof.
  unfold _establish_session, try_except, bind, get_self, http.
  destruct (net (clock st)) as [e|status body broken]; cbn;
    [apply extends_refl|].
  pose proof (session_scan_extends (iter_lines body) broken
                (after_request st (sse_request (self st)))) as Hscan.
  unfold after_request, sse_request in Hscan. cbn in Hscan.
  destruct (session_scan _ _ _) as [[[]|e] st']; exact Hscan.
Qed.

Lemma recover_extends (net : nat -> outcome) (e : exn) (st : state) :
  extends (self st)
    (self (snd ((if is_timeout e
                 then ret (error_envelope "Request timeout")
                 else _establish_session net ;;;
                      ret (error_envelope (message e))) st))).
Proof.
  destruct (is_timeout e); [apply extends_refl|].
  unfold bind, ret. pose proof (establish_extends net st) as H.
  destruct (_establish_session net st) as [[[]|e'] st']; exact H.
Qed.

Lemma call_tool_send_extends (json_loads : string -> attempt json)
    (net : nat -> outcome) (tool_name arguments : json) (st : state) :
  extends (self st)
    (self (snd (call_tool_send json_loads net tool_name arguments st))).
Proof.
  pose proof (extends_next_id (self st)) as H1.
  unfold call_tool_send, _get_next_id, try_except, bind, get_self, set_self,
    http, lift.
  cbn [ret fst snd self clock sent request_id message_url server_url].
  fold (with_next_id (self st)).
  set (st1 := {| self := _; clock := S (clock st); sent := _ |}).
  change (with_next_id (self st)) with (self st1) in H1.
  assert (Hrec : forall e,
             extends (self st)
               (self (snd ((if is_timeout e
                            then ret (error_envelope "Request timeout")
                            else _establish_session net ;;;
                                 ret (error_envelope (message e))) st1)))).
  { intros e. eapply extends_trans; [exact H1 | apply recover_extends]. }
  destruct (net (clock st)) as [e|status body broken]; [apply Hrec|].
  destruct (status =? 200); [|exact H1].
  destruct broken as [e|]; [apply Hrec|].
  destruct (startswith body "data: ").
  - destruct (post_body_scan json_loads (split_lines body)) as [v|e];
      [exact H1 | apply Hrec].
  - assert (Hsse : extends (self st)
                     (self (snd (match _call_tool_via_sse json_loads net
                                         tool_name arguments st1 with
                                 | (Ok a, st') => (Ok a, st')
                                 | (Raise e, st') =>
                                     (if is_timeout e
                                      then ret (error_envelope
                                                  "Request timeout")
                                      else _establish_session net ;;;
                                           ret (error_envelope (message e)))
                                       st'
                                 end)))).
    { pose proof (via_sse_state json_loads net tool_name arguments st1)
        as Hst.
      destruct (_call_tool_via_sse _ _ _ _ st1) as [[v|e] st2];
        cbn [snd] in *; subst st2.
      * eapply extends_trans; [exact H1 | apply extends_next_id].
      * eapply extends_trans; [exact H1|].
        eapply extends_trans; [apply extends_next_id|].
        apply (recover_extends net e
                 {| self := with_next_id (self st1);
                    clock := S (clock st1);
                    sent := _ |}). }
    destruct (json_loads body) as [res|e].
    + destruct (_process_tool_response res) as [v|e]; [exact H1|].
      destruct (is_decode_error e); [exact Hsse | apply Hrec].
    + destruct (is_decode_error e); [exact Hsse | apply Hrec].
Qed.

Lemma call_tool_extends (json_loads : string -> attempt json)
    (net : nat -> outcome) (tool_name arguments : json) (st : state) :
  extends (self st)
    (self (snd (call_tool json_loads net tool_name arguments st))).
Proof.
  unfold call_tool, bind, get_self.
  destruct (url_unset (message_url (self st)));
    [|apply call_tool_send_extends].
  pose proof (establish_extends net st) as H.
  destruct (_establish_session net st) as [[[]|e] st']; [|exact H].
  cbn [snd] in H. destruct (url_unset (message_url (self st')));
    [exact H|].
  eapply extends_trans; [exact H | apply call_tool_send_extends].
Qed.

Lemma run_extends (json_loads : string -> attempt json)
    (net : nat -> outcome) (ops : list operation) :
  forall st, extends (self st) (self (run json_loads net ops st)).
Proof.
  induction ops as [|op ops IH]; intros st; [apply extends_refl|].
  cbn [run fold_left].
  eapply extends_trans; [|apply IH].
  destruct op; cbn [run_operation].
  - apply establish_extends.
  - apply call_tool_extends.
  - unfold list_tools. rewrite via_sse_state. apply extends_next_id.
Qed.

(** X4. Whatever the device does, no sequence of operations changes the
    client's base URL, makes it forget a message endpoint or a session id
    it has, or lowers its id counter: a session, once established, is only
    ever replaced, never dropped. *)
Theorem session_never_dropped (json_loads : string -> attempt json)
    (net : nat -> outcome) (ops : list operation) (st : state) :
  let st' := run json_loads net ops st in
  server_url (self st') = server_url (self st) /\
  (url_unset (message_url (self st)) = false ->
   url_unset (message_url (self st')) = false) /\
  (session_established (self st) = true ->
   session_established (self st') = true) /\
  request_id (self st) <= request_id (self st').
Proof. exact (run_extends json_loads net ops st). Qed.

(** * Further properties: calls *)

(** What the [except] clauses of [call_tool] do with exception [e] in
    state [st]. *)
Lemma via_sse_result (json_loads : string -> attempt json)
    (net : nat -> outcome) (tool_name arguments : json) (st : state) :
  exists v,
    _call_tool_via_sse json_loads net tool_name arguments st
    = (Ok v, after_sse_post st tool_name arguments).
Proof.
  destruct (via_sse_returns json_loads net tool_name arguments st) as [v Hv].
  pose proof (via_sse_state json_loads net tool_name arguments st) as Hst.
  destruct (_call_tool_via_sse json_loads net tool_name arguments st)
    as [r st']. cbn [fst snd] in *. subst. now exists v.
Qed.

Lemma call_tool_send_cases (json_loads : string -> attempt json)
    (net : nat -> outcome) (tool_name arguments : json) (st : state) :
  let st1 := after_post st tool_name arguments in
  let recover (e : exn) :=
    (if is_timeout e then ret (error_envelope "Request timeout")
     else _establish_session net ;;; ret (error_envelope (message e))) st1 in
  call_tool_send json_loads net tool_name arguments st
  = match net (clock st) with
    | Refused e => recover e
    | Answered status body broken =>
        if status =? 200 then
          match broken with
          | Some e => recover e
          | None =>
              if startswith body "data: " then
                match post_body_scan json_loads (split_lines body) with
                | Ok v => (Ok v, st1)
                | Raise e => recover e
                end
              else
                match json_loads body with
                | Ok r =>
                    match _process_tool_response r with
                    | Ok v => (Ok v, st1)
                    | Raise e =>
                        if is_decode_error e
                        then _call_tool_via_sse json_loads net tool_name
                               arguments st1
                        else recover e
                    end
                | Raise e =>
                    if is_decode_error e
                    then _call_tool_via_sse json_loads net tool_name
                           arguments st1
                    else recover e
                end
          end
        else (Ok (error_envelope ("HTTP " ++ show_int status)), st1)
    end.
Proof.
  intros st1 recover. subst recover.
  unfold call_tool_send, _get_next_id, try_except, bind, get_self, set_self,
    http, lift, raise.
  cbn [ret fst snd self clock sent request_id message_url server_url].
  change {| self := _; clock := S (clock st); sent := _ |} with st1.
  destruct (net (clock st)) as [e|status body broken]; [reflexivity|].
  destruct (status =? 200); [|reflexivity].
  destruct broken as [e|]; [reflexivity|].
  destruct (startswith body "data: ").
  - destruct (post_body_scan json_loads (split_lines body)); reflexivity.
  - destruct (via_sse_result json_loads net tool_name arguments st1)
      as [w Hw].
    destruct (json_loads body) as [r|e].
    + destruct (_process_tool_response r) as [v|e]; [reflexivity|].
      destruct (is_decode_error e); [now rewrite Hw | reflexivity].
    + destruct (is_decode_error e); [now rewrite Hw | reflexivity].
Qed.

Lemma call_tool_on_status (json_loads : string -> attempt json)
    (net : nat -> outcome) (tool_name arguments : json) (st : state)
    (status : Z) (body : string) (broken : option exn) :
  url_unset (message_url (self st)) = false ->
  net (clock st) = Answered status body broken ->
  status <> 200 ->
  call_tool json_loads net tool_name arguments st
  = (Ok (error_envelope ("HTTP " ++ show_int status)),
     after_post st tool_name arguments).
Proof.
  intros Hset Hnet Hstatus. rewrite call_tool_connected by exact Hset.
  rewrite call_tool_send_cases, Hnet.
  apply Z.eqb_neq in Hstatus. now rewrite Hstatus.
Qed.

(** X5. A call over an established session that the device answers with
    a status other than 200 yields the error envelope "HTTP <status>"; the
    body is not read, the request is posted once, and nothing is done
    about the session. *)
Theorem http_error_status (json_loads : string -> attempt json)
    (net : nat -> outcome) (tool_name arguments : json) (st : state)
    (status : Z) (body : string) (broken : option exn) :
  url_unset (message_url (self st)) = false ->
  net (clock st) = Answered status body broken ->
  status <> 200 ->
  call_tool json_loads net tool_name arguments st
  = (Ok (error_envelope ("HTTP " ++ show_int status)),
     after_post st tool_name arguments).
Proof.
  exact (call_tool_on_status json_loads net tool_name arguments st status body broken).
Qed.

Lemma http_error_status_witness :
  call_tool Decoder.loads unavailable_device tool tool_arguments connected
  = (Ok (error_envelope "HTTP 503"),
     after_post connected tool tool_arguments).
Proof.
  apply (http_error_status Decoder.loads unavailable_device tool
           tool_arguments connected 503 "Service Unavailable" None).
  - reflexivity.
  - reflexivity.
  - discriminate.
Defined.

Lemma post_failure_recover (json_loads : string -> attempt json)
    (net : nat -> outcome) (tool_name arguments : json) (st : state)
    (e : exn) :
  post_failure (net (clock st)) = Some e ->
  call_tool_send json_loads net tool_name arguments st
  = (if is_timeout e then ret (error_envelope "Request timeout")
     else _establish_session net ;;; ret (error_envelope (message e)))
      (after_post st tool_name arguments).
Proof.
  intros Hfail. rewrite call_tool_send_cases.
  destruct (net (clock st)) as [e'|status body [e'|]]; cbn in Hfail.
  - now injection Hfail as ->.
  - destruct (status =? 200); [now injection Hfail as ->|discriminate].
  - discriminate.
Qed.

(** X6. A call over an established session whose POST times out (on
    the request or while the body of a 200 answer is read) yields the
    error envelope "Request timeout"; the request is posted once and the
    session is neither re-established nor changed. *)
Theorem timeout_keeps_session (json_loads : string -> attempt json)
    (net : nat -> outcome) (tool_name arguments : json) (st : state)
    (e : exn) :
  url_unset (message_url (self st)) = false ->
  post_failure (net (clock st)) = Some e ->
  is_timeout e = true ->
  call_tool json_loads net tool_name arguments st
  = (Ok (error_envelope "Request timeout"),
     after_post st tool_name arguments).
Proof.
  intros Hset Hfail Htimeout. rewrite call_tool_connected by exact Hset.
  rewrite (post_failure_recover _ _ _ _ _ e Hfail), Htimeout. reflexivity.
Qed.

Lemma timeout_keeps_session_witness :
  call_tool Decoder.loads timeout_device tool tool_arguments connected
  = (Ok (error_envelope "Request timeout"),
     after_post connected tool tool_arguments).
Proof.
  exact (timeout_keeps_session Decoder.loads timeout_device tool
           tool_arguments connected timeout_error eq_refl eq_refl eq_refl).
Defined.

Lemma recover_by_establishment (net : nat -> outcome) (e : exn) (st : state) :
  is_timeout e = false ->
  (if is_timeout e then ret (error_envelope "Request timeout")
   else _establish_session net ;;; ret (error_envelope (message e))) st
  = (match fst (_establish_session net st) with
     | Ok _ => Ok (error_envelope (message e))
     | Raise e' => Raise e'
     end,
     snd (_establish_session net st)).
Proof.
  intros ->. unfold bind, ret.
  destruct (_establish_session net st) as [[[]|e'] st']; reflexivity.
Qed.

(** X7. A call over an established session whose POST fails with an
    exception that is not a timeout is not retried: the client attempts one
    re-establishment of the session (one GET of the session endpoint after
    the one POST) and, when that attempt returns, whether or not it found a
    session, the call yields the error envelope carrying the message of
    the POST's exception. *)
Theorem failed_post_not_retried (json_loads : string -> attempt json)
    (net : nat -> outcome) (tool_name arguments : json) (st : state)
    (e : exn) :
  url_unset (message_url (self st)) = false ->
  post_failure (net (clock st)) = Some e ->
  is_timeout e = false ->
  let st1 := after_post st tool_name arguments in
  let r := call_tool json_loads net tool_name arguments st in
  snd r = snd (_establish_session net st1) /\
  sent (snd r)
  = (sent st
     ++ [message_post (self st)
           (tools_call_request tool_name arguments (request_id (self st) + 1));
         sse_request (self st)])%list /\
  fst r = match fst (_establish_session net st1) with
          | Ok _ => Ok (error_envelope (message e))
          | Raise e' => Raise e'
          end.
Proof.
  intros Hset Hfail Htimeout st1 r. subst r st1.
  rewrite call_tool_connected by exact Hset.
  rewrite (post_failure_recover _ _ _ _ _ e Hfail).
  rewrite (recover_by_establishment net e _ Htimeout). cbn [fst snd].
  split; [reflexivity|]. split; [|reflexivity].
  destruct (establish_frame net (after_post st tool_name arguments))
    as [_ Hsent].
  rewrite Hsent. cbn. now rewrite <- app_assoc.
Qed.

Lemma failed_post_not_retried_witness :
  let st1 := after_post connected tool tool_arguments in
  let r := call_tool Decoder.loads flaky_device tool tool_arguments
             connected in
  snd r = snd (_establish_session flaky_device st1) /\
  sent (snd r)
  = [message_post (self connected)
       (tools_call_request tool tool_arguments 1);
     sse_request (self connected)] /\
  fst r = match fst (_establish_session flaky_device st1) with
          | Ok _ => Ok (error_envelope (message connection_error))
          | Raise e' => Raise e'
          end.
Proof.
  exact (failed_post_not_retried Decoder.loads flaky_device tool
           tool_arguments connected connection_error
           eq_refl eq_refl eq_refl).
Defined.

Lemma call_tool_on_direct_answer (json_loads : string -> attempt json)
    (net : nat -> outcome) (tool_name arguments : json) (st : state)
    (body : string) (r v : json) :
  url_unset (message_url (self st)) = false ->
  net (clock st) = Answered 200 body None ->
  startswith body "data: " = false ->
  json_loads body = Ok r ->
  _process_tool_response r = Ok v ->
  call_tool json_loads net tool_name arguments st
  = (Ok v, after_post st tool_name arguments).
Proof.
  intros Hset Hnet Hdata Hjson Hnorm.
  rewrite call_tool_connected by exact Hset.
  rewrite call_tool_send_cases, Hnet. cbn [Z.eqb Pos.eqb].
  now rewrite Hdata, Hjson, Hnorm.
Qed.

(** X8. A call over an established session that the device answers 200
    with a body that is not data-prefixed and decodes as JSON returns the
    normalization of that document, when normalization succeeds; one
    request is posted and the session is left alone.  The id of the
    document is not compared with the id of the request. *)
Theorem direct_answer_normalized (json_loads : string -> attempt json)
    (net : nat -> outcome) (tool_name arguments : json) (st : state)
    (body : string) (r v : json) :
  url_unset (message_url (self st)) = false ->
  net (clock st) = Answered 200 body None ->
  startswith body "data: " = false ->
  json_loads body = Ok r ->
  _process_tool_response r = Ok v ->
  call_tool json_loads net tool_name arguments st
  = (Ok v, after_post st tool_name arguments).
Proof.
  exact (call_tool_on_direct_answer json_loads net tool_name arguments st body r v).
Qed.

Lemma direct_answer_normalized_witness :
  call_tool Decoder.loads direct_device tool tool_arguments connected
  = (Ok (normalized_envelope (JInt 1) (JBool false) "ready"),
     after_post connected tool tool_arguments).
Proof.
  exact (direct_answer_normalized Decoder.loads direct_device tool
           tool_arguments connected answer_payload (JDict answer_fields)
           (normalized_envelope (JInt 1) (JBool false) "ready")
           eq_refl eq_refl eq_refl eq_refl eq_refl).
Defined.

Lemma post_body_scan_first (json_loads : string -> attempt json)
    (pre : list string) (line : string) (rest : list string) (r v : json) :
  forallb (no_payload json_loads) pre = true ->
  post_payload json_loads line = Some r ->
  _process_tool_response r = Ok v ->
  post_body_scan json_loads (pre ++ line :: rest) = Ok v.
Proof.
  intros Hpre Hline Hnorm.
  induction pre as [|l pre IH]; cbn [app post_body_scan].
  - unfold post_payload in Hline.
    destruct (startswith line "data: "
              && negb (String.eqb (strip (drop 6 line)) "[DONE]"));
      [|discriminate].
    destruct (json_loads (drop 6 line)) as [r'|e]; [|discriminate].
    injection Hline as ->. now rewrite Hnorm.
  - cbn [forallb] in Hpre. apply andb_prop in Hpre. destruct Hpre as [Hl Hp].
    unfold no_payload in Hl.
    destruct (startswith l "data: "
              && negb (String.eqb (strip (drop 6 l)) "[DONE]"));
      [|now apply IH].
    destruct (json_loads (drop 6 l)) as [r'|e]; [discriminate|].
    rewrite Hl. now apply IH.
Qed.

(** X9. A call over an established session that the device answers 200
    with a data-prefixed body returns the normalization of the first data
    line that is not the sentinel and decodes as JSON, when normalization
    succeeds and the decoder rejects every data line before it (the
    sentinel apart) with JSONDecodeError.  On this path the sentinel is
    passed over like any other line, lines after it are still read, and
    the id of the document is not compared with the id of the request. *)
Theorem data_body_first_payload (json_loads : string -> attempt json)
    (net : nat -> outcome) (tool_name arguments : json) (st : state)
    (body : string) (pre : list string) (line : string) (rest : list string)
    (r v : json) :
  url_unset (message_url (self st)) = false ->
  net (clock st) = Answered 200 body None ->
  startswith body "data: " = true ->
  split_lines body = (pre ++ line :: rest)%list ->
  forallb (no_payload json_loads) pre = true ->
  post_payload json_loads line = Some r ->
  _process_tool_response r = Ok v ->
  call_tool json_loads net tool_name arguments st
  = (Ok v, after_post st tool_name arguments).
Proof.
  intros Hset Hnet Hdata Hbody Hpre Hline Hnorm.
  rewrite call_tool_connected by exact Hset.
  rewrite call_tool_send_cases, Hnet. cbn [Z.eqb Pos.eqb].
  rewrite Hdata, Hbody.
  now rewrite (post_body_scan_first json_loads pre line rest r v Hpre Hline
                 Hnorm).
Qed.

Lemma data_body_first_payload_witness :
  call_tool Decoder.loads sse_body_device tool tool_arguments connected
  = (Ok (normalized_envelope (JInt 99) (JBool false) "ready"),
     after_post connected tool tool_arguments).
Proof.
  exact (data_body_first_payload Decoder.loads sse_body_device tool
           tool_arguments connected sse_body
           ["data: [DONE]"] ("data: " ++ other_answer_payload) []
           (JDict [("id", JInt 99);
                   ("result", JDict [("content", JStr "ready")])])
           (normalized_envelope (JInt 99) (JBool false) "ready")
           eq_refl eq_refl eq_refl eq_refl eq_refl eq_refl eq_refl).
Defined.

Lemma join_from_error (sep : string) (parts : list json) :
  forall i e,
    join_from i sep parts = Raise e ->
    cls e = TypeError /\
    exists p, In p parts /\ forall s, p <> JStr s.
Proof.
  induction parts as [|p rest IH]; intros i e; cbn [join_from];
    [discriminate|].
  destruct p;
    try (intros [= <-]; split; [reflexivity|];
         eexists; split; [left; reflexivity | discriminate]).
  destruct rest as [|p' rest']; [discriminate|].
  destruct (join_from (S i) sep (p' :: rest')) as [t|e'] eqn:Hj;
    [discriminate|].
  intros [= <-]. destruct (IH _ _ Hj) as [Hcls [q [Hq Hnot]]].
  split; [exact Hcls|]. exists q. split; [now right | exact Hnot].
Qed.

Lemma normalization_error_class (r : json) (e : exn) :
  _process_tool_response r = Raise e ->
  cls e = TypeError \/ cls e = AttributeError.
Proof.
  unfold _process_tool_response.
  destruct (py_in "error" r) as [[|]|e'] eqn:Hin; try discriminate.
  - destruct (py_get r "result" (JDict [])) as [res|e'] eqn:Hget.
    + destruct res; try discriminate.
      destruct (str_join nl _) as [t|e'] eqn:Hj.
      * destruct (py_get r "id" JNull) as [id|e''] eqn:Hid;
          [discriminate|].
        intros [= <-]. right. destruct r; cbn in Hid; try discriminate;
          now injection Hid as <-.
      * intros [= <-]. left. unfold str_join in Hj.
        now destruct (join_from_error _ _ _ _ Hj).
    + intros [= <-]. right. destruct r; cbn in Hget; try discriminate;
        now injection Hget as <-.
  - intros [= <-]. left. destruct r; cbn in Hin; try discriminate;
      now injection Hin as <-.
Qed.

Lemma normalization_error_not_timeout (r : json) (e : exn) :
  _process_tool_response r = Raise e -> is_timeout e = false.
Proof.
  intros H. unfold is_timeout.
  destruct (normalization_error_class r e H) as [-> | ->]; reflexivity.
Qed.

Lemma normalization_error_not_decode (r : json) (e : exn) :
  _process_tool_response r = Raise e -> is_decode_error e = false.
Proof.
  intros H. unfold is_decode_error.
  destruct (normalization_error_class r e H) as [-> | ->]; reflexivity.
Qed.

(** X10. When the 200 answer to a POST decodes as JSON but normalization
    rejects the document (a bare number, for one), the stream fallback is
    not tried: the client attempts one re-establishment of the session and,
    when that attempt returns, the call yields the error envelope carrying
    the message of the rejection. *)
Theorem rejected_answer_reestablishes (json_loads : string -> attempt json)
    (net : nat -> outcome) (tool_name arguments : json) (st : state)
    (body : string) (r : json) (e : exn) :
  url_unset (message_url (self st)) = false ->
  net (clock st) = Answered 200 body None ->
  startswith body "data: " = false ->
  json_loads body = Ok r ->
  _process_tool_response r = Raise e ->
  let st1 := after_post st tool_name arguments in
  let res := call_tool json_loads net tool_name arguments st in
  sent (snd res)
  = (sent st
     ++ [message_post (self st)
           (tools_call_request tool_name arguments (request_id (self st) + 1));
         sse_request (self st)])%list /\
  fst res = match fst (_establish_session net st1) with
            | Ok _ => Ok (error_envelope (message e))
            | Raise e' => Raise e'
            end.
Proof.
  intros Hset Hnet Hdata Hjson Hnorm st1 res. subst res st1.
  rewrite call_tool_connected by exact Hset.
  rewrite call_tool_send_cases, Hnet. cbn [Z.eqb Pos.eqb].
  rewrite Hdata, Hjson, Hnorm.
  rewrite (normalization_error_not_decode r e Hnorm).
  rewrite (recover_by_establishment net e _
             (normalization_error_not_timeout r e Hnorm)).
  cbn [fst snd]. split; [|reflexivity].
  destruct (establish_frame net (after_post st tool_name arguments))
    as [_ Hsent].
  rewrite Hsent. cbn. now rewrite <- app_assoc.
Qed.

Lemma rejected_answer_reestablishes_witness :
  let st1 := after_post connected tool tool_arguments in
  let res := call_tool Decoder.loads number_device tool tool_arguments
               connected in
  sent (snd res)
  = [message_post (self connected)
       (tools_call_request tool tool_arguments 1);
     sse_request (self connected)] /\
  fst res
  = match fst (_establish_session number_device st1) with
    | Ok _ =>
        Ok (error_envelope
              (message (Exn TypeError
                          "argument of type 'int' is not iterable")))
    | Raise e' => Raise e'
    end.
Proof.
  exact (rejected_answer_reestablishes Decoder.loads number_device tool
           tool_arguments connected "12" (JInt 12)
           (Exn TypeError "argument of type 'int' is not iterable")
           eq_refl eq_refl eq_refl eq_refl eq_refl).
Defined.

Lemma session_scan_raise (lines : list string) (broken : option exn)
    (e : exn) :
  forall st,
    fst (session_scan lines broken st) = Raise e ->
    broken = Some e /\ snd (session_scan lines broken st) = st.
Proof.
  induction lines as [|line rest IH]; intros st; cbn [session_scan].
  - destruct broken as [e'|]; cbn; [|discriminate].
    intros [= ->]. now split.
  - unfold bind, get_self.
    destruct (session_of_line (self st) line); [discriminate|]. apply IH.
Qed.

Lemma establish_raise (net : nat -> outcome) (st : state) (e : exn) :
  fst (_establish_session net st) = Raise e ->
  stream_failure (net (clock st)) = Some e /\
  snd (_establish_session net st) = after_request st (sse_request (self st)).
Proof.
  unfold _establish_session, try_except, bind, get_self, http.
  destruct (net (clock st)) as [e'|status body broken]; cbn.
  - intros [= ->]. now split.
  - pose proof (session_scan_raise (iter_lines body) broken e
                  (after_request st (sse_request (self st)))) as Hscan.
    unfold after_request, sse_request in *. cbn in Hscan.
    destruct (session_scan _ _ _) as [[[]|e'] st']; cbn in *;
      [discriminate|].
    intros [= ->]. destruct (Hscan eq_refl) as [-> ->]. now split.
Qed.

Lemma sse_request_same (c c' : client) :
  server_url c' = server_url c -> sse_request c' = sse_request c.
Proof. unfold sse_request. now intros ->. Qed.

Lemma recover_raise (net : nat -> outcome) (e0 e : exn) (st : state) :
  fst ((if is_timeout e0 then ret (error_envelope "Request timeout")
        else _establish_session net ;;; ret (error_envelope (message e0)))
         st) = Raise e ->
  stream_failure (net (clock st)) = Some e /\
  snd ((if is_timeout e0 then ret (error_envelope "Request timeout")
        else _establish_session net ;;; ret (error_envelope (message e0)))
         st) = after_request st (sse_request (self st)).
Proof.
  destruct (is_timeout e0); [discriminate|]. unfold bind, ret.
  pose proof (establish_raise net st e) as H.
  destruct (_establish_session net st) as [[[]|e'] st']; cbn in *;
    [discriminate|].
  intros [= ->]. now apply H.
Qed.

Lemma call_tool_send_raise (json_loads : string -> attempt json)
    (net : nat -> outcome) (tool_name arguments : json) (st : state)
    (e : exn) :
  fst (call_tool_send json_loads net tool_name arguments st) = Raise e ->
  stream_failure (net (S (clock st))) = Some e /\
  snd (call_tool_send json_loads net tool_name arguments st)
  = after_request (after_post st tool_name arguments)
      (sse_request (self st)).
Proof.
  rewrite call_tool_send_cases. cbv zeta.
  assert (Hrec : forall e0,
             fst ((if is_timeout e0
                   then ret (error_envelope "Request timeout")
                   else _establish_session net ;;;
                        ret (error_envelope (message e0)))
                    (after_post st tool_name arguments)) = Raise e ->
             stream_failure (net (S (clock st))) = Some e /\
             snd ((if is_timeout e0
                   then ret (error_envelope "Request timeout")
                   else _establish_session net ;;;
                        ret (error_envelope (message e0)))
                    (after_post st tool_name arguments))
             = after_request (after_post st tool_name arguments)
                 (sse_request (self st))).
  { intros e0 H. exact (recover_raise net e0 e _ H). }
  destruct (net (clock st)) as [e0|status body broken]; [apply Hrec|].
  destruct (status =? 200); [|discriminate].
  destruct broken as [e0|]; [apply Hrec|].
  destruct (startswith body "data: ").
  - destruct (post_body_scan json_loads (split_lines body)) as [v|e0];
      [discriminate | apply Hrec].
  - destruct (via_sse_result json_loads net tool_name arguments
                (after_post st tool_name arguments)) as [w Hw].
    destruct (json_loads body) as [r|e0].
    + destruct (_process_tool_response r) as [v|e0]; [discriminate|].
      destruct (is_decode_error e0);
        [rewrite Hw; discriminate | apply Hrec].
    + destruct (is_decode_error e0);
        [rewrite Hw; discriminate | apply Hrec].
Qed.

(** X11. An exception leaves [call_tool] only when a GET of the session
    endpoint fails: the last request of the call is that GET, and the
    exception is the one with which it failed, on the request or while its
    stream was read.  Every other failure is returned as a value. *)
Theorem call_raises_only_from_establishment
    (json_loads : string -> attempt json) (net : nat -> outcome)
    (tool_name arguments : json) (st : state) (e : exn) :
  fst (call_tool json_loads net tool_name arguments st) = Raise e ->
  exists st0,
    snd (call_tool json_loads net tool_name arguments st)
    = after_request st0 (sse_request (self st)) /\
    stream_failure (net (clock st0)) = Some e.
Proof.
  unfold call_tool, bind, get_self.
  destruct (url_unset (message_url (self st))).
  - pose proof (establish_raise net st) as Hraise.
    pose proof (establish_extends net st) as [Hsrv _].
    destruct (_establish_session net st) as [[[]|e'] st'] eqn:Hest;
      cbn [fst snd] in *.
    + destruct (url_unset (message_url (self st'))); [discriminate|].
      intros H. destruct (call_tool_send_raise _ _ _ _ _ _ H) as [Hf ->].
      exists (after_post st' tool_name arguments). split; [|exact Hf].
      now rewrite (sse_request_same (self st) (self st') Hsrv).
    + intros [= ->]. destruct (Hraise e eq_refl) as [Hf ->].
      now exists st.
  - intros H. destruct (call_tool_send_raise _ _ _ _ _ _ H) as [Hf ->].
    now exists (after_post st tool_name arguments).
Qed.

Lemma call_raises_only_from_establishment_witness :
  exists st0,
    snd (call_tool Decoder.loads unreachable_device tool tool_arguments
           connected)
    = after_request st0 (sse_request (self connected)) /\
    stream_failure (unreachable_device (clock st0)) = Some connection_error.
Proof.
  exact (call_raises_only_from_establishment Decoder.loads
           unreachable_device tool tool_arguments connected
           connection_error eq_refl).
Defined.

(** X12. The stream fallback, and with it [list_tools], never raises and
    never touches the session: whatever the device does, it returns a
    value after exactly one POST to the stream endpoint, carrying the next
    correlation id, and it neither needs nor establishes a message
    endpoint. *)
Theorem fallback_always_returns (json_loads : string -> attempt json)
    (net : nat -> outcome) (tool_name arguments : json) (st : state) :
  (exists v,
      _call_tool_via_sse json_loads net tool_name arguments st
      = (Ok v, after_sse_post st tool_name arguments)) /\
  (exists v,
      list_tools json_loads net st
      = (Ok v,
         after_sse_post st (JStr "tools")
           (JDict [("operation", JStr "list")]))).
Proof.
  split; [|unfold list_tools]; apply via_sse_result.
Qed.

Lemma call_tool_send_first_post (json_loads : string -> attempt json)
    (net : nat -> outcome) (tool_name arguments : json) (st : state) :
  exists tail,
    sent (snd (call_tool_send json_loads net tool_name arguments st))
    = (sent st
       ++ message_post (self st)
            (tools_call_request tool_name arguments
               (request_id (self st) + 1))
          :: tail)%list.
Proof.
  rewrite call_tool_send_cases. cbv zeta.
  assert (H1 : exists tail,
             sent (after_post st tool_name arguments)
             = (sent st
                ++ message_post (self st)
                     (tools_call_request tool_name arguments
                        (request_id (self st) + 1))
                   :: tail)%list) by now exists [].
  assert (Hrec : forall e0,
             exists tail,
               sent (snd ((if is_timeout e0
                           then ret (error_envelope "Request timeout")
                           else _establish_session net ;;;
                                ret (error_envelope (message e0)))
                            (after_post st tool_name arguments)))
               = (sent st
                  ++ message_post (self st)
                       (tools_call_request tool_name arguments
                          (request_id (self st) + 1))
                     :: tail)%list).
  { intros e0. destruct (is_timeout e0); [exact H1|].
    unfold bind, ret.
    destruct (establish_frame net (after_post st tool_name arguments))
      as [_ Hsent].
    destruct (_establish_session net (after_post st tool_name arguments))
      as [[[]|e'] st']; cbn [snd] in *; rewrite Hsent; cbn;
      rewrite <- app_assoc; now eexists. }
  destruct (net (clock st)) as [e0|status body broken]; [apply Hrec|].
  destruct (status =? 200); [|exact H1].
  destruct broken as [e0|]; [apply Hrec|].
  destruct (startswith body "data: ").
  - destruct (post_body_scan json_loads (split_lines body)) as [v|e0];
      [exact H1 | apply Hrec].
  - assert (Hsse : exists tail,
               sent (snd (_call_tool_via_sse json_loads net tool_name
                            arguments (after_post st tool_name arguments)))
               = (sent st
                  ++ message_post (self st)
                       (tools_call_request tool_name arguments
                          (request_id (self st) + 1))
                     :: tail)%list).
    { destruct (via_sse_result json_loads net tool_name arguments
                  (after_post st tool_name arguments)) as [v ->].
      cbn. rewrite <- app_assoc. now eexists. }
    destruct (json_loads body) as [r|e0].
    + destruct (_process_tool_response r) as [v|e0]; [exact H1|].
      destruct (is_decode_error e0); [exact Hsse | apply Hrec].
    + destruct (is_decode_error e0); [exact Hsse | apply Hrec].
Qed.

(** X13. A call on a client without a message endpoint establishes the
    session once, inline, and goes on as a call on the client that the
    first announcing line of the stream defines: its POST goes to the
    endpoint just discovered and carries the next correlation id. *)
Theorem call_uses_discovered_endpoint (json_loads : string -> attempt json)
    (net : nat -> outcome) (tool_name arguments : json) (st : state)
    (status : Z) (body : string) (broken : option exn)
    (pre : list string) (line : string) (rest : list string) (c' : client) :
  url_unset (message_url (self st)) = true ->
  net (clock st) = Answered status body broken ->
  iter_lines body = (pre ++ line :: rest)%list ->
  forallb (no_session (self st)) pre = true ->
  session_of_line (self st) line = Some c' ->
  let st' := {| self := c';
                clock := S (clock st);
                sent := (sent st ++ [sse_request (self st)])%list |} in
  call_tool json_loads net tool_name arguments st
  = call_tool_send json_loads net tool_name arguments st' /\
  exists tail,
    sent (snd (call_tool json_loads net tool_name arguments st))
    = (sent st
       ++ sse_request (self st)
          :: message_post c'
               (tools_call_request tool_name arguments
                  (request_id (self st) + 1))
          :: tail)%list.
Proof.
  intros Hunset Hnet Hbody Hpre Hline st'.
  assert (Hcall : call_tool json_loads net tool_name arguments st
                  = call_tool_send json_loads net tool_name arguments st').
  { unfold call_tool, bind, get_self. rewrite Hunset.
    rewrite (establish_first_match net st status body broken pre line rest
               c' Hnet Hbody Hpre Hline).
    cbv beta iota. cbn [self].
    now rewrite (session_payload_not_empty _ _ _ Hline). }
  split; [exact Hcall|]. rewrite Hcall.
  destruct (call_tool_send_first_post json_loads net tool_name arguments st')
    as [tail Htail].
  exists tail. rewrite Htail. subst st'. cbn [sent self].
  rewrite <- app_assoc. cbn.
  destruct (session_of_line_spec _ _ _ Hline) as [_ [_ [_ [_ [-> _]]]]].
  reflexivity.
Qed.

Lemma call_uses_discovered_endpoint_witness :
  let st' := {| self := self connected;
                clock := 1;
                sent := [sse_request (init_client device_url)] |} in
  call_tool Decoder.loads token_device tool tool_arguments
    (init_state device_url)
  = call_tool_send Decoder.loads token_device tool tool_arguments st' /\
  exists tail,
    sent (snd (call_tool Decoder.loads token_device tool tool_arguments
                 (init_state device_url)))
    = sse_request (init_client device_url)
      :: message_post (self connected)
           (tools_call_request tool tool_arguments 1)
      :: tail.
Proof.
  exact (call_uses_discovered_endpoint Decoder.loads token_device tool
           tool_arguments (init_state device_url)
           200 token_stream (Some connection_error)
           ["event: endpoint" ++ nl] token_line ["data: later" ++ nl]
           (self connected) eq_refl eq_refl eq_refl eq_refl eq_refl).
Defined.

(** * Further properties: normalization *)

(** X14. Normalization of a response object never changes its
    correlation id and never adds or removes an error member: the value it
    returns is an object with the id and the error member of the
    response. *)
Theorem normalization_keeps_id (response : list (string * json)) (v : json) :
  _process_tool_response (JDict response) = Ok v ->
  exists fields,
    v = JDict fields /\
    dict_get_default "id" JNull fields = dict_get_default "id" JNull response /\
    dict_get "error" fields = dict_get "error" response.
Proof.
  unfold _process_tool_response, py_in, py_get.
  destruct (dict_get "error" response) eqn:Herr.
  - intros [= <-]. exists response. now rewrite Herr.
  - assert (Hsame : Ok (JDict response) = Ok v ->
                    exists fields,
                      v = JDict fields /\
                      dict_get_default "id" JNull fields
                      = dict_get_default "id" JNull response /\
                      dict_get "error" fields = None).
    { intros [= <-]. exists response. now rewrite Herr. }
    destruct (dict_get_default "result" (JDict []) response);
      try exact Hsame.
    destruct (str_join nl _) as [text|e]; [|discriminate].
    intros [= <-]. eexists. split; [reflexivity|]. now split.
Qed.

Lemma normalization_keeps_id_witness :
  exists fields,
    normalized_envelope (JInt 7) (JBool false) ("a" ++ nl ++ "b")
    = JDict fields /\
    dict_get_default "id" JNull fields
    = dict_get_default "id" JNull sample_response /\
    dict_get "error" fields = dict_get "error" sample_response.
Proof.
  exact (normalization_keeps_id sample_response
           (normalized_envelope (JInt 7) (JBool false) ("a" ++ nl ++ "b"))
           eq_refl).
Defined.

(** X15. Normalization of a response object fails in one way only: with
    a TypeError, when the response is a success whose result is a mapping
    with a content list in which some text-typed item carries a text that
    is not a string. *)
Theorem normalization_fails_on_bad_text (response : list (string * json))
    (e : exn) :
  _process_tool_response (JDict response) = Raise e ->
  cls e = TypeError /\
  dict_get "error" response = None /\
  exists result items item,
    dict_get "result" response = Some (JDict result) /\
    dict_get "content" result = Some (JList items) /\
    In item items /\
    is_text_item item = true /\
    forall s, item_text item <> JStr s.
Proof.
  unfold _process_tool_response, py_in, py_get.
  destruct (dict_get "error" response) eqn:Herr; [discriminate|].
  unfold dict_get_default at 1.
  destruct (dict_get "result" response) as [res|] eqn:Hres.
  - destruct res; try discriminate.
    destruct (str_join nl _) as [text|e'] eqn:Hj; [discriminate|].
    intros [= <-]. unfold str_join in Hj.
    destruct (join_from_error _ _ _ _ Hj) as [Hcls [p [Hp Hnot]]].
    split; [exact Hcls|]. split; [reflexivity|].
    unfold dict_get_default in Hp.
    destruct (dict_get "content" fields) as [[]|] eqn:Hc;
      cbn in Hp; try contradiction.
    + destruct Hp as [<-|[]]. now elim (Hnot s).
    + rewrite collect_text_parts_spec in Hp. cbn in Hp.
      apply in_map_iff in Hp. destruct Hp as [item [<- Hin]].
      apply filter_In in Hin. destruct Hin as [Hin Htext].
      exists fields, items, item. auto.
  - cbn. discriminate.
Qed.

Lemma normalization_fails_on_bad_text_witness :
  cls (Exn TypeError "sequence item 1: expected str instance, int found")
  = TypeError /\
  dict_get "error" sample_bad_response = None /\
  exists result items item,
    dict_get "result" sample_bad_response = Some (JDict result) /\
    dict_get "content" result = Some (JList items) /\
    In item items /\
    is_text_item item = true /\
    forall s, item_text item <> JStr s.
Proof.
  exact (normalization_fails_on_bad_text sample_bad_response
           (Exn TypeError "sequence item 1: expected str instance, int found")
           eq_refl).
Defined.

(** * Further properties: the constructor *)

Lemma rstrip_slash_app (s : string) :
  rstrip_slash (s ++ "/") = rstrip_slash s.
Proof.
  induction s as [|c s IH]; [reflexivity|].
  cbn [append rstrip_slash]. now rewrite IH.
Qed.

Lemma rstrip_slash_no_slash (s : string) :
  forall t, rstrip_slash s <> t ++ "/".
Proof.
  induction s as [|c s IH]; intros t; cbn [rstrip_slash].
  - destruct t; discriminate.
  - destruct (rstrip_slash s) as [|c' r] eqn:Hr.
    + destruct (Ascii.eqb c "/"%char) eqn:Hc.
      * destruct t; discriminate.
      * destruct t as [|c'' t]; cbn.
        -- intros [= ->]. discriminate Hc.
        -- intros [= _ H]. destruct t; discriminate H.
    + destruct t as [|c'' t]; cbn; [discriminate|].
      intros [= _ H]. exact (IH t H).
Qed.

(** X16. The constructor drops the slashes that end the base URL: a URL
    given with a trailing slash makes the same client as the URL without
    it, and the stored base URL never ends with a slash, so the endpoint
    URLs the client builds have no doubled slash at the join. *)
Theorem base_url_without_trailing_slash (url : string) :
  init_client (url ++ "/") = init_client url /\
  forall t, server_url (init_client url) <> t ++ "/".
Proof.
  unfold init_client. cbn [server_url]. rewrite rstrip_slash_app.
  split; [reflexivity | apply rstrip_slash_no_slash].
Qed.

(** * Further properties: the bridge server *)

Lemma render_result_status (json_loads : string -> attempt json)
    (result : json) (response : web_response) :
  render_result json_loads result = Ok response ->
  status_code response = 200.
Proof.
  unfold render_result.
  destruct (py_in "result" result) as [[|]|e]; try discriminate.
  - destruct (py_getitem result "result") as [inner|e]; [|discriminate].
    destruct (py_in "content" inner) as [[|]|e]; try discriminate.
    + destruct (py_getitem inner "content") as [content|e]; [|discriminate].
      destruct content; try discriminate; try now intros [= <-].
      destruct (json_loads s) as [parsed|e]; [now intros [= <-]|].
      destruct (cls e); try discriminate; now intros [= <-].
    + now intros [= <-].
  - now intros [= <-].
Qed.

(** X17. The handler of POST /call never raises: for every request
    body, every decoder and every behaviour of the device it answers, and
    the status of its answer is 200, 400 or 500. *)
Theorem tool_call_always_answers (json_loads : string -> attempt json)
    (net : nat -> outcome) (body : string) (st : state) :
  exists response,
    fst (handle_tool_call json_loads net body st) = Ok response /\
    (status_code response = 200 \/
     status_code response = 400 \/
     status_code response = 500).
Proof.
  unfold handle_tool_call, try_except.
  match goal with
  | |- context [match ?m st with _ => _ end] =>
      destruct (m st) as [[response|e] st'] eqn:Hinner
  end.
  - exists response. split; [reflexivity|].
    revert Hinner. unfold bind, lift, ret, raise.
    destruct (json_loads body) as [data|e]; [|discriminate].
    destruct (py_get data "tool" JNull) as [tool_name|e]; [|discriminate].
    destruct (py_get data "arguments" (JDict [])) as [arguments|e];
      [|discriminate].
    destruct (negb (truthy tool_name)).
    + intros [= <- _]. cbn. auto.
    + destruct (call_tool json_loads net tool_name arguments st)
        as [[result|e] st''] ; [|discriminate].
      destruct (render_result json_loads result) as [r|e] eqn:Hr;
        [|discriminate].
      intros [= <- _]. left.
      exact (render_result_status json_loads result r Hr).
  - destruct (cls e); eexists; (split; [reflexivity | cbn; auto]).
Qed.

(** X18. A request body that the decoder rejects with JSONDecodeError is
    answered 400 with {"error": "Invalid JSON"}; a body on which the
    decoder fails with another exception is answered 500 with the message
    of that exception; a body that is JSON but not an object is answered
    500, not 400.  In all three cases the device is not contacted and the
    client is unchanged. *)
Theorem bad_request_body (json_loads : string -> attempt json)
    (net : nat -> outcome) (body : string) (st : state) :
  (forall e,
      json_loads body = Raise e ->
      handle_tool_call json_loads net body st
      = (Ok (if is_decode_error e
             then json_response (JDict [("error", JStr "Invalid JSON")]) 400
             else json_response (JDict [("error", JStr (message e))]) 500),
         st))
  /\
  (forall data,
      json_loads body = Ok data ->
      is_dict data = false ->
      exists msg,
        handle_tool_call json_loads net body st
        = (Ok (json_response (JDict [("error", JStr msg)]) 500), st)).
Proof.
  split.
  - intros e Hbody. unfold handle_tool_call, try_except, bind, lift.
    rewrite Hbody. unfold is_decode_error. destruct (cls e); reflexivity.
  - intros data Hbody Hdict.
    unfold handle_tool_call, try_except, bind, lift. rewrite Hbody.
    destruct data; try discriminate Hdict; eexists; reflexivity.
Qed.

(** X19. Failures of the device are reported in band: when the call
    behind POST /call is answered by the device with a status other than
    200, the handler answers HTTP 200 with the error envelope
    "HTTP <status>" as its JSON body. *)
Theorem upstream_error_in_band (json_loads : string -> attempt json)
    (net : nat -> outcome) (body : string) (st : state)
    (fields : list (string * json)) (status : Z) (upstream : string)
    (broken : option exn) :
  json_loads body = Ok (JDict fields) ->
  truthy (dict_get_default "tool" JNull fields) = true ->
  url_unset (message_url (self st)) = false ->
  net (clock st) = Answered status upstream broken ->
  status <> 200 ->
  fst (handle_tool_call json_loads net body st)
  = Ok (json_response (error_envelope ("HTTP " ++ show_int status)) 200).
Proof.
  intros Hbody Htool Hset Hnet Hstatus.
  unfold handle_tool_call, try_except, bind, lift, py_get.
  rewrite Hbody, Htool. cbn [negb].
  rewrite (call_tool_on_status json_loads net _ _ st status upstream broken
             Hset Hnet Hstatus).
  reflexivity.
Qed.

Lemma upstream_error_in_band_witness :
  fst (handle_tool_call Decoder.loads unavailable_device call_body connected)
  = Ok (json_response (error_envelope "HTTP 503") 200).
Proof.
  apply (upstream_error_in_band Decoder.loads unavailable_device call_body
           connected
           [("tool", tool); ("arguments", tool_arguments)]
           503 "Service Unavailable" None).
  - reflexivity.
  - reflexivity.
  - reflexivity.
  - reflexivity.
  - discriminate.
Defined.

(** The response for a string content [text], as the last lines of
    [handle_tool_call] make it. *)
Lemma render_normalized (json_loads : string -> attempt json)
    (id is_error : json) (text : string) :
  render_result json_loads (normalized_envelope id is_error text)
  = match json_loads text with
    | Ok parsed => Ok (json_response parsed 200)
    | Raise e =>
        match cls e with
        | JSONDecodeError | TypeError => Ok (text_response text)
        | _ => Raise e
        end
    end.
Proof. reflexivity. Qed.

(** X20. When the device answers the call behind POST /call directly
    with a success whose result content is a string, the handler decodes
    that string: when it decodes as JSON the answer is 200 with the decoded
    value as JSON body; when the decoder rejects it with JSONDecodeError
    (or TypeError) the answer is 200 with the string as text/plain; when
    the decoder fails with another exception the answer is 500 with the
    message of that exception. *)
Theorem content_rendered (json_loads : string -> attempt json)
    (net : nat -> outcome) (body : string) (st : state)
    (fields : list (string * json)) (upstream : string)
    (response result : list (string * json)) (text : string) :
  json_loads body = Ok (JDict fields) ->
  truthy (dict_get_default "tool" JNull fields) = true ->
  url_unset (message_url (self st)) = false ->
  net (clock st) = Answered 200 upstream None ->
  startswith upstream "data: " = false ->
  json_loads upstream = Ok (JDict response) ->
  dict_get "error" response = None ->
  dict_get "result" response = Some (JDict result) ->
  dict_get "content" result = Some (JStr text) ->
  fst (handle_tool_call json_loads net body st)
  = Ok match json_loads text with
       | Ok parsed => json_response parsed 200
       | Raise e =>
           match cls e with
           | JSONDecodeError | TypeError => text_response text
           | _ => json_response (JDict [("error", JStr (message e))]) 500
           end
       end.
Proof.
  intros Hbody Htool Hset Hnet Hdata Hup Herr Hres Hcontent.
  assert (Hnorm : _process_tool_response (JDict response)
                  = Ok (normalized_envelope
                          (dict_get_default "id" JNull response)
                          (dict_get_default "isError" (JBool false) result)
                          text)).
  { rewrite (success_envelope_result _ _ Herr Hres).
    unfold dict_get_default at 1. now rewrite Hcontent. }
  unfold handle_tool_call, try_except, bind, lift, py_get.
  rewrite Hbody, Htool. cbn [negb].
  rewrite (call_tool_on_direct_answer json_loads net _ _ st upstream _ _
             Hset Hnet Hdata Hup Hnorm).
  rewrite render_normalized.
  destruct (json_loads text) as [parsed|e]; [reflexivity|].
  destruct (cls e) eqn:Hcls; cbn; rewrite ?Hcls; reflexivity.
Qed.

Lemma content_rendered_witness :
  fst (handle_tool_call Decoder.loads json_content_device call_body
         connected)
  = Ok (json_response (JDict [("a", JInt 1)]) 200).
Proof.
  exact (content_rendered Decoder.loads json_content_device call_body
           connected
           [("tool", tool); ("arguments", tool_arguments)]
           json_content_payload
           [("result", JDict [("content", JStr ("{" ++ quoted "a" ++ ": 1}"))])]
           [("content", JStr ("{" ++ quoted "a" ++ ": 1}"))]
           ("{" ++ quoted "a" ++ ": 1}")
           eq_refl eq_refl eq_refl eq_refl eq_refl eq_refl eq_refl eq_refl
           eq_refl).
Defined.

(** On the worked decoder: a content of 4301 digits is answered 500. *)
Lemma long_content_answers_500 :
  exists msg,
    fst (handle_tool_call Decoder.loads long_content_device call_body
           connected)
    = Ok (json_response (JDict [("error", JStr msg)]) 500).
Proof. eexists. vm_compute. reflexivity. Qed.

(** X21. The handler of GET /tools always answers 200 with a JSON
    body: [list_tools] never raises, so the 500 branch of the handler is
    never taken; a failure of the device shows as an error envelope in the
    body.  The handler posts one request, for the tool "tools" with the
    operation "list", to the stream endpoint. *)
Theorem list_tools_always_200 (json_loads : string -> attempt json)
    (net : nat -> outcome) (st : state) :
  exists v,
    handle_list_tools json_loads net st
    = (Ok (json_response v 200),
       after_sse_post st (JStr "tools")
         (JDict [("operation", JStr "list")])).
Proof.
  unfold handle_list_tools, try_except, bind, ret, list_tools.
  destruct (via_sse_result json_loads net (JStr "tools")
              (JDict [("operation", JStr "list")]) st) as [v ->].
  now exists v.
Qed.

(** X22. When [call_tool] falls off its loop over a data-prefixed body
    (every data line the sentinel or rejected by the decoder with
    JSONDecodeError) and returns [None], the handler of POST /call answers
    500: the membership test on [None] raises and the catch-all clause
    reports it. *)
Theorem none_result_answers_500 (json_loads : string -> attempt json)
    (net : nat -> outcome) (body : string) (st : state)
    (fields : list (string * json)) (upstream : string) :
  json_loads body = Ok (JDict fields) ->
  truthy (dict_get_default "tool" JNull fields) = true ->
  url_unset (message_url (self st)) = false ->
  net (clock st) = Answered 200 upstream None ->
  startswith upstream "data: " = true ->
  forallb (no_payload json_loads) (split_lines upstream) = true ->
  exists msg,
    fst (handle_tool_call json_loads net body st)
    = Ok (json_response (JDict [("error", JStr msg)]) 500).
Proof.
  intros Hbody Htool Hset Hnet Hdata Hlines.
  pose proof (post_body_scan_no_payload json_loads _ Hlines) as Hscan.
  unfold handle_tool_call, try_except, bind, lift, py_get.
  rewrite Hbody, Htool. cbn [negb].
  rewrite call_tool_connected by exact Hset.
  rewrite call_tool_send_cases, Hnet. cbn [Z.eqb Pos.eqb].
  rewrite Hdata, Hscan. eexists. reflexivity.
Qed.

Lemma none_result_answers_500_witness :
  exists msg,
    fst (handle_tool_call Decoder.loads done_only_device call_body connected)
    = Ok (json_response (JDict [("error", JStr msg)]) 500).
Proof.
  exact (none_result_answers_500 Decoder.loads done_only_device call_body
           connected
           [("tool", tool); ("arguments", tool_arguments)]
           done_only_body
           eq_refl eq_refl eq_refl eq_refl eq_refl eq_refl).
Defined.

(** X23. A failure of the transport during the stream fallback is
    returned as the error envelope carrying the message of the exception,
    whether the POST itself raises or the stream breaks before an answer
    or the sentinel was read; a timeout is not told apart on this path. *)
Theorem fallback_transport_failure (json_loads : string -> attempt json)
    (net : nat -> outcome) (tool_name arguments : json) (st : state)
    (e : exn) :
  net (clock st) = Refused e \/
  (exists status body,
      net (clock st) = Answered status body (Some e) /\
      forallb (skipped json_loads (request_id (self st) + 1))
              (iter_lines body) = true) ->
  _call_tool_via_sse json_loads net tool_name arguments st
  = (Ok (error_envelope (message e)),
     after_sse_post st tool_name arguments).
Proof.
  intros Hfail.
  destruct (via_sse_result json_loads net tool_name arguments st)
    as [v Hv].
  rewrite Hv. f_equal. f_equal.
  assert (Hfst : fst (_call_tool_via_sse json_loads net tool_name arguments
                        st) = Ok v) by now rewrite Hv.
  destruct Hfail as [Hnet | [status [body [Hnet Hskip]]]].
  - revert Hfst.
    unfold _call_tool_via_sse, _get_next_id, try_except, bind, get_self,
      set_self, http, lift.
    cbn [ret fst snd self clock sent request_id]. rewrite Hnet.
    now intros [= <-].
  - rewrite (via_sse_value json_loads net tool_name arguments st status body
               (Some e) Hnet) in Hfst.
    rewrite <- (app_nil_r (iter_lines body)) in Hfst.
    rewrite sse_scan_prefix in Hfst by exact Hskip.
    cbn in Hfst. now injection Hfst as <-.
Qed.

Lemma fallback_transport_failure_witness :
  _call_tool_via_sse Decoder.loads timeout_device tool tool_arguments
    connected
  = (Ok (error_envelope (message timeout_error)),
     after_sse_post connected tool tool_arguments).
Proof.
  exact (fallback_transport_failure Decoder.loads timeout_device tool
           tool_arguments connected timeout_error (or_introl eq_refl)).
Defined.
